(** * TXTDirect: directive parser, zone resolver and redirect dispatcher

  A shallow embedding of [record.go] (Record, GetRecord, ParseRecord,
  UpstreamRecord, CheckUpstream, ParseURI, getBaseTarget, absoluteZone,
  query) and of the dispatcher file (contains, isIP, Redirect).

  Go strings are byte sequences, so they are [string]s here and [len] is
  [String.length].  A Go [int] is a [Z]; the only integers that appear are
  parsed by [strconv.Atoi], which bounds them to 64 bits.

  The response writer is only ever written to, never read, by the
  embedded code: every effect on it (and every DNS lookup) is recorded
  as an [Event] of a chronological trace.  Logging and metric counters do
  not influence control flow and are left out of the trace. *)

From Stdlib Require Import String Ascii List ZArith Lia Bool DecimalString.
Import ListNotations.

Local Open Scope string_scope.
Local Open Scope list_scope.

(** ** The [strings] package, as far as the program uses it *)

Module Strings.

(** [strings.HasPrefix]. *)
Fixpoint HasPrefix (s p : string) {struct p} : bool :=
  match p, s with
  | EmptyString, _ => true
  | String b p', String a s' => Ascii.eqb a b && HasPrefix s' p'
  | String _ _, EmptyString => false
  end.

Arguments HasPrefix s p : simpl nomatch.

(** [strings.TrimPrefix]: [s] without the leading [p], or [s] itself. *)
Definition TrimPrefix (s p : string) : string :=
  if HasPrefix s p
  then String.substring (String.length p) (String.length s - String.length p) s
  else s.

Fixpoint strrev (s : string) : string :=
  match s with
  | EmptyString => EmptyString
  | String a s' => strrev s' ++ String a EmptyString
  end.

(** [strings.HasSuffix]. *)
Definition HasSuffix (s p : string) : bool :=
  HasPrefix (strrev s) (strrev p).

(** [strings.Contains] at a one-byte needle. *)
Fixpoint ContainsByte (s : string) (c : ascii) : bool :=
  match s with
  | EmptyString => false
  | String a s' => Ascii.eqb a c || ContainsByte s' c
  end.

(** [strings.Contains]. *)
Fixpoint Contains (s substr : string) : bool :=
  HasPrefix s substr ||
  match s with
  | EmptyString => false
  | String _ s' => Contains s' substr
  end.

(** [strings.ContainsAny]: some byte of [chars] occurs in [s]. *)
Fixpoint ContainsAny (s chars : string) : bool :=
  match chars with
  | EmptyString => false
  | String c cs => ContainsByte s c || ContainsAny s cs
  end.

(** [strings.Split] at a one-byte separator, which is what every call
    site of the program passes (";", "=", "." and ":").  The result is
    never empty: the text after the last separator is its last element. *)
Fixpoint Split (s : string) (sep : ascii) : list string :=
  match s with
  | EmptyString => [EmptyString]
  | String a s' =>
      if Ascii.eqb a sep then EmptyString :: Split s' sep
      else match Split s' sep with
           | [] => [String a EmptyString]
           | h :: t => String a h :: t
           end
  end.

(** [strings.Join]. *)
Definition Join (l : list string) (sep : string) : string :=
  String.concat sep l.

(** White space as [unicode.IsSpace] sees it in UTF-8 text: the six ASCII
    blanks, then the encodings of U+0085, U+00A0, U+1680, U+2000..U+200A,
    U+2028, U+2029, U+202F, U+205F and U+3000. *)
Definition bytes (l : list nat) : string :=
  string_of_list_ascii (map ascii_of_nat l).

Definition spaceRunes : list string :=
  map bytes
    ([[9]; [10]; [11]; [12]; [13]; [32];
      [194; 133]; [194; 160]; [225; 154; 128]]
     ++ map (fun k => [226; 128; 128 + k]) (seq 0 11)
     ++ [[226; 128; 168]; [226; 128; 169]; [226; 128; 175];
         [226; 129; 159]; [227; 128; 128]])%nat.

Definition stripOne (runes : list string) (s : string) : option string :=
  match find (HasPrefix s) runes with
  | Some p => Some (TrimPrefix s p)
  | None => None
  end.

Fixpoint trimLeft (fuel : nat) (runes : list string) (s : string) : string :=
  match fuel with
  | O => s
  | S fuel' =>
      match stripOne runes s with
      | Some s' => trimLeft fuel' runes s'
      | None => s
      end
  end.

(** [strings.TrimSpace]: leading and trailing white space removed. *)
Definition TrimSpace (s : string) : string :=
  let s1 := trimLeft (String.length s) spaceRunes s in
  strrev (trimLeft (String.length s1) (map strrev spaceRunes) (strrev s1)).

End Strings.
Import Strings.

(** ** The [strconv] package: [Atoi], [ParseBool] and [Itoa] *)

Module Strconv.

Definition digit (a : ascii) : option Z :=
  let n := Z.of_nat (nat_of_ascii a) in
  if (48 <=? n)%Z && (n <=? 57)%Z then Some (n - 48)%Z else None.

(** Value of a string of decimal digits, most significant first. *)
Fixpoint digits (acc : Z) (s : string) : option Z :=
  match s with
  | EmptyString => Some acc
  | String a s' =>
      match digit a with
      | Some d => digits (acc * 10 + d) s'
      | None => None
      end
  end.

Definition unsigned (s : string) : option Z :=
  match s with
  | EmptyString => None
  | _ => digits 0 s
  end.

Definition minInt : Z := (- 2 ^ 63)%Z.
Definition maxInt : Z := (2 ^ 63 - 1)%Z.

(** [strconv.Atoi]: an optional sign, then at least one decimal digit,
    and a value that fits a 64-bit [int]; anything else is an error. *)
Definition Atoi (s : string) : option Z :=
  let signed :=
    match s with
    | String "-" s' => option_map Z.opp (unsigned s')
    | String "+" s' => unsigned s'
    | _ => unsigned s
    end in
  match signed with
  | Some n => if (minInt <=? n)%Z && (n <=? maxInt)%Z then Some n else None
  | None => None
  end.

(** [strconv.ParseBool]. *)
Definition ParseBool (s : string) : option bool :=
  if existsb (String.eqb s) ["1"; "t"; "T"; "TRUE"; "true"; "True"]
  then Some true
  else if existsb (String.eqb s) ["0"; "f"; "F"; "FALSE"; "false"; "False"]
  then Some false
  else None.

(** [strconv.Itoa]. *)
Definition Itoa (n : Z) : string := NilZero.string_of_int (Z.to_int n).

End Strconv.
Import Strconv.

(** ** Data model *)

(** The [Record] struct.  [Headers] is a Go map from header name to value;
    it is kept as an association list with one entry per name. *)
Record Record_ : Type := mkRecord {
  Version : string;
  To : string;
  Code : Z;
  Type_ : string;
  Use : list string;
  Vcs : string;
  Website : string;
  From : string;
  Root : string;
  Re : string;
  Ref : bool;
  Headers : list (string * string)
}.

(** [Record{}]: the zero value (its nil map and an empty map both have no
    entries). *)
Definition zeroRecord : Record_ :=
  mkRecord "" "" 0 "" [] "" "" "" "" "" false [].

Definition set_Version (v : string) (r : Record_) : Record_ :=
  mkRecord v (To r) (Code r) (Type_ r) (Use r) (Vcs r) (Website r) (From r)
           (Root r) (Re r) (Ref r) (Headers r).
Definition set_To (v : string) (r : Record_) : Record_ :=
  mkRecord (Version r) v (Code r) (Type_ r) (Use r) (Vcs r) (Website r)
           (From r) (Root r) (Re r) (Ref r) (Headers r).
Definition set_Code (v : Z) (r : Record_) : Record_ :=
  mkRecord (Version r) (To r) v (Type_ r) (Use r) (Vcs r) (Website r)
           (From r) (Root r) (Re r) (Ref r) (Headers r).
Definition set_Type (v : string) (r : Record_) : Record_ :=
  mkRecord (Version r) (To r) (Code r) v (Use r) (Vcs r) (Website r)
           (From r) (Root r) (Re r) (Ref r) (Headers r).
Definition set_Use (v : list string) (r : Record_) : Record_ :=
  mkRecord (Version r) (To r) (Code r) (Type_ r) v (Vcs r) (Website r)
           (From r) (Root r) (Re r) (Ref r) (Headers r).
Definition set_Vcs (v : string) (r : Record_) : Record_ :=
  mkRecord (Version r) (To r) (Code r) (Type_ r) (Use r) v (Website r)
           (From r) (Root r) (Re r) (Ref r) (Headers r).
Definition set_Website (v : string) (r : Record_) : Record_ :=
  mkRecord (Version r) (To r) (Code r) (Type_ r) (Use r) (Vcs r) v
           (From r) (Root r) (Re r) (Ref r) (Headers r).
Definition set_From (v : string) (r : Record_) : Record_ :=
  mkRecord (Version r) (To r) (Code r) (Type_ r) (Use r) (Vcs r) (Website r)
           v (Root r) (Re r) (Ref r) (Headers r).
Definition set_Root (v : string) (r : Record_) : Record_ :=
  mkRecord (Version r) (To r) (Code r) (Type_ r) (Use r) (Vcs r) (Website r)
           (From r) v (Re r) (Ref r) (Headers r).
Definition set_Re (v : string) (r : Record_) : Record_ :=
  mkRecord (Version r) (To r) (Code r) (Type_ r) (Use r) (Vcs r) (Website r)
           (From r) (Root r) v (Ref r) (Headers r).
Definition set_Ref (v : bool) (r : Record_) : Record_ :=
  mkRecord (Version r) (To r) (Code r) (Type_ r) (Use r) (Vcs r) (Website r)
           (From r) (Root r) (Re r) v (Headers r).
Definition set_Headers (v : list (string * string)) (r : Record_) : Record_ :=
  mkRecord (Version r) (To r) (Code r) (Type_ r) (Use r) (Vcs r) (Website r)
           (From r) (Root r) (Re r) (Ref r) v.

(** [m[k] = v] on a Go map: the entry of [k] is replaced, or added. *)
Fixpoint mapSet (k v : string) (m : list (string * string))
  : list (string * string) :=
  match m with
  | [] => [(k, v)]
  | (k', v') :: m' =>
      if String.eqb k' k then (k, v) :: m' else (k', v') :: mapSet k v m'
  end.

(** The part of [Config] that the embedded functions read. *)
Record Config : Type := mkConfig {
  Enable : list string;
  Resolver : string
}.

(** What the embedded functions read of an [*http.Request]: host, URL path,
    the [User-Agent] header, the [go-get] query parameter, and the two
    values kept in its context ([nil] is [None]). *)
Record Request : Type := mkRequest {
  Host : string;
  Path : string;
  UserAgent : string;
  GoGet : string;
  ctxRecords : option (list Record_);
  ctxUpstreamZone : option string
}.

(** Errors, one constructor per message of the source. *)
Inductive error : Type :=
| ErrStatusCode                 (* could not parse status code *)
| ErrPlaceholder                (* returned by parsePlaceholders *)
| ErrParseBool                  (* returned by strconv.ParseBool *)
| ErrZoneInvalid                (* The given zone address is invalid *)
| ErrVersion (v : string)       (* unhandled version *)
| ErrUnescape                   (* returned by url.PathUnescape *)
| ErrArbitrary                  (* arbitrary data not allowed *)
| ErrTooLong                    (* TXT record cannot exceed ... 255 *)
| ErrDockerTo                   (* to= field is required in dockerv2 *)
| ErrNotEnabled (ty : string)   (* type is not enabled in configuration *)
| ErrLookup                     (* could not get TXT record *)
| ErrEmptyTXT                   (* TXT record doesn't exist or is empty *)
| ErrRecordCount (n : nat)      (* could not parse TXT record with n records *)
| ErrParseRecord (e : error)    (* could not parse record *)
| ErrUpstream                   (* Couldn't find any records from upstream *)
| ErrOptionDisabled             (* option disabled *)
| ErrUnsupported (ty : string)  (* record type unsupported *)
| ErrHandler (msg : string).    (* returned by a type handler *)

(** Effects on the response writer and on the network, in order. *)
Inductive Event : Type :=
| EvLookupTXT (resolver zone : string)    (* net.LookupTXT on a zone *)
| EvFallback (mode : string) (code : Z)   (* fallback(w, r, mode, code, c) *)
| EvHeaderSet (k v : string)              (* w.Header().Set *)
| EvHeaderAdd (k v : string)              (* w.Header().Add *)
| EvHTTPRedirect (url : string) (code : Z) (* http.Redirect *)
| EvFinalRecord                           (* getFinalRecord *)
| EvProxy                                 (* proxyRequest *)
| EvDockerv2                              (* redirectDockerv2 *)
| EvGometa                                (* gometa *)
| EvGomods.                               (* gomods *)

(** The collaborators whose code is outside the embedded files: the DNS
    resolver, the placeholder expander, [net/url], and the type handlers.
    A lookup or an expansion that fails is [None]; a handler that succeeds
    is [None] (Go's nil error). *)
Record Env : Type := mkEnv {
  LookupTXT : string -> string -> option (list string);
  parsePlaceholders : Request -> string -> option string;
  urlParse : string -> option string;
  PathUnescape : string -> option string;
  getFinalRecord : Request -> Record_ -> Record_ * option error;
  proxyRequest : Request -> Record_ -> option string;
  redirectDockerv2 : Request -> Record_ -> option string;
  gometa : Record_ -> string -> string -> option string;
  gomods : Request -> string -> option string
}.

(** ** Results and the trace monad *)

(** A Go call returns a value with a nil error, returns an error, or
    panics.  Every [return x, err] of the embedded functions has the zero
    record as [x], so [Err] carries the error alone. *)
Inductive res (A : Type) : Type :=
| Ok (a : A)
| Err (e : error)
| Panic.
Arguments Ok {A} a.
Arguments Err {A} e.
Arguments Panic {A}.

Definition M (A : Type) : Type := list Event * res A.

Definition ret {A} (a : A) : M A := ([], Ok a).
Definition throw {A} (e : error) : M A := ([], Err e).
Definition panic {A} : M A := ([], Panic).
Definition emit (ev : Event) : M unit := ([ev], Ok tt).

(** Sequencing: an error or a panic of the first part ends the function. *)
Definition bind {A B} (m : M A) (k : A -> M B) : M B :=
  match m with
  | (t, Ok a) => let (t', b) := k a in (t ++ t', b)
  | (t, Err e) => (t, Err e)
  | (t, Panic) => (t, Panic)
  end.

(** [x, err := f()] followed by a test of [err]: the error becomes a
    value, a panic still unwinds. *)
Definition attempt {A} (m : M A) : M (A + error) :=
  match m with
  | (t, Ok a) => (t, Ok (inl a))
  | (t, Err e) => (t, Ok (inr e))
  | (t, Panic) => (t, Panic)
  end.

Notation "x <- m ;; k" := (bind m (fun x => k))
  (at level 61, m at next level, right associativity).
Notation "m ;;; k" := (bind m (fun _ => k))
  (at level 61, right associativity).

Definition trace {A} (m : M A) : list Event := fst m.
Definition result {A} (m : M A) : res A := snd m.

(** The Fallback Policy is a collaborator; a call to it is an event. *)
Definition fallback (mode : string) (code : Z) : M unit :=
  emit (EvFallback mode code).

Definition StatusMovedPermanently : Z := 301.
Definition StatusFound : Z := 302.
Definition StatusNotFound : Z := 404.
Definition basezone : string := "_redirect".
Definition status301CacheAge : Z := 604800.

(** ** record.go *)

Section Program.

Variable env : Env.
Variable c : Config.

(** [contains] checks the given slice to see if an item exists in it. *)
Fixpoint contains (array : list string) (word : string) : bool :=
  match array with
  | [] => false
  | w :: rest => if String.eqb w word then true else contains rest word
  end.

(** [ParseURI] parses the given URI and triggers fallback if the URI isn't
    valid; its only result is a string, empty in that case. *)
Definition ParseURI (uri : string) : M string :=
  match urlParse env uri with
  | None => fallback "global" StatusMovedPermanently ;;; ret ""
  | Some u => ret u
  end.

(** [if len(l) > 255] at the end of the loop body, on the [l] of the loop
    as the case left it. *)
Definition checkLen (l : string) (r : Record_) : M Record_ :=
  if (255 <? String.length l)%nat then throw ErrTooLong else ret r.

(** One iteration of the loop of [ParseRecord] over the trimmed segments:
    the [switch] and the length check.  In the cases of [from=], [root=],
    [to=] and [ref=] the source declares a new [l] with [:=], so the length
    that is checked is that of the loop's [l]: the value before its
    placeholders are expanded, and for [ref=] the segment with its key.
    The default case ends with [continue] and skips the check. *)
Definition parseSegment (req : Request) (l : string) (r : Record_)
  : M Record_ :=
  if HasPrefix l "code=" then
    let l := TrimPrefix l "code=" in
    match Atoi l with
    | None => throw ErrStatusCode
    | Some i => checkLen l (set_Code i r)
    end
  else if HasPrefix l "from=" then
    let l := TrimPrefix l "from=" in
    match parsePlaceholders env req l with
    | None => throw ErrPlaceholder
    | Some l' => checkLen l (set_From l' r)
    end
  else if HasPrefix l "re=" then
    let l := TrimPrefix l "re=" in
    checkLen l (set_Re l r)
  else if HasPrefix l "ref=" then
    match ParseBool (TrimPrefix l "ref=") with
    | None => fallback "global" StatusMovedPermanently ;;; throw ErrParseBool
    | Some b => checkLen l (set_Ref b r)
    end
  else if HasPrefix l "root=" then
    let l := TrimPrefix l "root=" in
    match parsePlaceholders env req l with
    | None => throw ErrPlaceholder
    | Some l' => u <- ParseURI l' ;; checkLen l (set_Root u r)
    end
  else if HasPrefix l "to=" then
    let l := TrimPrefix l "to=" in
    match parsePlaceholders env req l with
    | None => throw ErrPlaceholder
    | Some l' => u <- ParseURI l' ;; checkLen l (set_To u r)
    end
  else if HasPrefix l "type=" then
    let l := TrimPrefix l "type=" in
    checkLen l (set_Type l r)
  else if HasPrefix l "use=" then
    let l := TrimPrefix l "use=" in
    if negb (HasPrefix l "_redirect.") then throw ErrZoneInvalid
    else checkLen l (set_Use (Use r ++ [l]) r)
  else if HasPrefix l "v=" then
    let l := TrimPrefix l "v=" in
    if negb (String.eqb l "txtv0") then throw (ErrVersion l)
    else checkLen l (set_Version l r)
  else if HasPrefix l "vcs=" then
    let l := TrimPrefix l "vcs=" in
    checkLen l (set_Vcs l r)
  else if HasPrefix l "website=" then
    let l := TrimPrefix l "website=" in
    l <- ParseURI l ;; checkLen l (set_Website l r)
  else if HasPrefix l ">" then
    let header := Split l "=" in
    match nth_error header 1 with
    | None => panic
    | Some h1 =>
        match PathUnescape env h1 with
        | None => throw ErrUnescape
        | Some h =>
            let name := match nth 0 header "" with
                        | String _ rest => rest
                        | EmptyString => ""
                        end in
            checkLen l (set_Headers (mapSet name h (Headers r)) r)
        end
    end
  else
    let tuple := Split l "=" in
    if negb (length tuple =? 2)%nat then throw ErrArbitrary else ret r.

(** [for _, l := range s]: the first error or panic returns. *)
Fixpoint parseSegments (req : Request) (s : list string) (r : Record_)
  : M Record_ :=
  match s with
  | [] => ret r
  | l :: rest => r' <- parseSegment req l r ;; parseSegments req rest r'
  end.

(** What follows the loop: the dockerv2 rule, the default status code and,
    for a record without [use=], the rules on its type. *)
Definition finishRecord (r : Record_) : M Record_ :=
  if String.eqb (Type_ r) "dockerv2" && String.eqb (To r) "" then
    throw ErrDockerTo
  else
    let r := if (Code r =? 0)%Z then set_Code StatusFound r else r in
    if (length (Use r) =? 0)%nat then
      let r := if String.eqb (Type_ r) "" then set_Type "host" r else r in
      if String.eqb (Type_ r) "host" && String.eqb (To r) "" then
        fallback "global" StatusMovedPermanently ;;; ret zeroRecord
      else if negb (contains (Enable c) (Type_ r)) then
        throw (ErrNotEnabled (Type_ r))
      else ret r
    else ret r.

(** The segments of a TXT string: split at [;], each one trimmed. *)
Definition segments (str : string) : list string :=
  map TrimSpace (Split str ";").

(** [ParseRecord] takes a string containing the DNS TXT record and returns
    a TXTDirect record struct instance. *)
Definition ParseRecord (str : string) (req : Request) : M Record_ :=
  r <- parseSegments req (segments str) zeroRecord ;;
  finishRecord r.

(** [addToContext] adds the given record to the request's context with
    the "records" key. *)
Definition addToContext (rec : Record_) (r : Request) : Request :=
  let records := match ctxRecords r with
                 | None => [rec]
                 | Some rs => rs ++ [rec]
                 end in
  mkRequest (Host r) (Path r) (UserAgent r) (GoGet r) (Some records)
            (ctxUpstreamZone r).

(** [absoluteZone]: the port is removed, the base zone is put in front
    unless the zone starts with it, and a final dot is added if missing. *)
Definition absoluteZone (zone : string) : string :=
  let zone := if ContainsByte zone ":" then nth 0 (Split zone ":") ""
              else zone in
  let zone := if negb (HasPrefix zone basezone)
              then Join [basezone; zone] "." else zone in
  if HasSuffix zone "." then zone else Join [zone; "."] "".

(** [query] checks the given zone using net.LookupTXT.  [txts[0]] on an
    empty answer is an index out of range. *)
Definition query (zone : string) : M (list string) :=
  emit (EvLookupTXT (Resolver c) (absoluteZone zone)) ;;;
  match LookupTXT env (Resolver c) (absoluteZone zone) with
  | None => throw ErrLookup
  | Some txts =>
      match txts with
      | [] => panic
      | t0 :: _ => if String.eqb t0 "" then throw ErrEmptyTXT else ret txts
      end
  end.

(** [for header, val := range rec.Headers { w.Header().Set(header, val) }] *)
Fixpoint setHeaders (h : list (string * string)) : M unit :=
  match h with
  | [] => ret tt
  | (k, v) :: rest => emit (EvHeaderSet k v) ;;; setHeaders rest
  end.

(** The end of [GetRecord]: exactly one TXT string is parsed, and the
    headers of its record are set on the response. *)
Definition parseAnswer (txts : list string) (r : Request) : M Record_ :=
  match txts with
  | [t0] =>
      p <- attempt (ParseRecord t0 r) ;;
      match p with
      | inr e => throw (ErrParseRecord e)
      | inl rec => setHeaders (Headers rec) ;;; ret rec
      end
  | _ => throw (ErrRecordCount (length txts))
  end.

(** [GetRecord] uses the given host to find a TXT record and then parses
    it.  The request that [addToContext] builds is assigned to the local
    [r] only, so the caller's request is unchanged. *)
Definition GetRecord (host : string) (r : Request) : M Record_ :=
  q1 <- attempt (query host) ;;
  q2 <- match q1, ctxRecords r with
        | inr _, None => attempt (query ("_." ++ host))
        | _, _ => ret q1
        end ;;
  wild <- match q2 with
          | inr _ => ret true
          | inl [] => panic
          | inl (t0 :: _) => ret (String.eqb t0 "")
          end ;;
  txts <- (if wild : bool then
             let hostSlice := Split host "." in
             let hostSlice := "_" :: tl hostSlice in
             query (Join hostSlice ".")
           else match q2 with
                | inl txts => ret txts
                | inr e => throw e
                end) ;;
  parseAnswer txts r.

(** The loop of [UpstreamRecord] over [rec.Use]. *)
Fixpoint upstreamLoop (zones : list string) (r : Request)
  : M (Record_ * string) :=
  match zones with
  | [] => throw ErrUpstream
  | zone :: rest =>
      g <- attempt (GetRecord zone r) ;;
      match g with
      | inr _ => upstreamLoop rest r
      | inl upstreamRec => ret (upstreamRec, zone)
      end
  end.

(** [UpstreamRecord] will check all of the use= fields and sends a request
    to each upstream zone address and choses the first one that returns
    the final TXT record. *)
Definition UpstreamRecord (rec : Record_) (r : Request)
  : M (Record_ * string) :=
  upstreamLoop (Use rec) r.

(** [CheckUpstream]: the record is replaced by its upstream record and
    the zone, its first label removed, is put in the request's context. *)
Definition CheckUpstream (rec : Record_) (r : Request)
  : M (Record_ * Request) :=
  if negb (length (Use rec) =? 0)%nat then
    u <- UpstreamRecord rec r ;;
    let '(upstreamRec, zone) := u in
    let zoneSplited := Split zone "." in
    ret (upstreamRec,
         mkRequest (Host r) (Path r) (UserAgent r) (GoGet r) (ctxRecords r)
                   (Some (Join (tl zoneSplited) ".")))
  else ret (rec, r).

(** [getBaseTarget] parses the placeholder in the given record's To= field
    and returns the final address and http status code. *)
Definition getBaseTarget (rec : Record_) (r : Request) : M (string * Z) :=
  if ContainsAny (To rec) "{}" then
    match parsePlaceholders env r (To rec) with
    | None => throw ErrPlaceholder
    | Some to => ret (to, Code rec)
    end
  else ret (To rec, Code rec).

(** ** The dispatcher *)

(** [isIP]: more than two parts around [:], or a last label that
    [strconv.Atoi] accepts. *)
Definition isIP (host : string) : bool :=
  if (2 <? length (Split host ":"))%nat then true
  else
    let hostSlice := Split host "." in
    match Atoi (last hostSlice "") with
    | Some _ => true
    | None => false
    end.

(** The redirect that the path and host types write: the cache header on
    a permanent redirect, the status echo, then [http.Redirect]. *)
Definition writeRedirect (url : string) (code : Z) : M unit :=
  (if (code =? StatusMovedPermanently)%Z
   then emit (EvHeaderAdd "Cache-Control"
                          ("max-age=" ++ Itoa status301CacheAge))
   else ret tt) ;;;
  emit (EvHeaderAdd "Status-Code" (Itoa code)) ;;;
  emit (EvHTTPRedirect url code).

(** The [if rec.Type == "path"] block of [Redirect].  [None]: the block
    has returned nil; [Some]: dispatch goes on with this record. *)
Definition pathStage (rec : Record_) (r : Request)
  : M (option (Record_ * Request)) :=
  if String.eqb (Type_ rec) "path" then
    if String.eqb (Path r) "/" then
      if String.eqb (Root rec) "" then
        fallback "to" (Code rec) ;;; ret None
      else
        writeRedirect (Root rec) (Code rec) ;;; ret None
    else if negb (String.eqb (Path r) "") then
      emit EvFinalRecord ;;;
      let (rec', err) := getFinalRecord env r rec in
      let r' := addToContext rec' r in
      match err with
      | Some _ => fallback "to" (Code rec') ;;; ret None
      | None => ret (Some (rec', r'))
      end
    else ret (Some (rec, r))
  else ret (Some (rec, r)).

(** The blocks of [Redirect] after the path block, one per type. *)
Definition typeStage (host path : string) (rec : Record_) (r : Request)
  : M unit :=
  if String.eqb (Type_ rec) "proxy" then
    emit EvProxy ;;;
    match proxyRequest env r rec with
    | Some _ => fallback "to" (Code rec)
    | None => ret tt
    end
  else if String.eqb (Type_ rec) "dockerv2" then
    if negb (Contains (UserAgent r) "Docker-Client") then
      fallback "to" (Code rec)
    else
      emit EvDockerv2 ;;;
      match redirectDockerv2 env r rec with
      | Some _ => fallback "to" (Code rec)
      | None => ret tt
      end
  else if String.eqb (Type_ rec) "host" then
    g <- attempt (getBaseTarget rec r) ;;
    match g with
    | inr _ => fallback "to" 0
    | inl (to, code) => writeRedirect to code
    end
  else if String.eqb (Type_ rec) "gometa" then
    if negb (String.eqb (GoGet r) "1") then
      fallback "website" StatusFound
    else
      emit EvGometa ;;;
      match gometa env rec host path with
      | Some e => throw (ErrHandler e)
      | None => ret tt
      end
  else if String.eqb (Type_ rec) "gomods" then
    emit EvGomods ;;;
    match gomods env r path with
    | Some e => throw (ErrHandler e)
    | None => ret tt
    end
  else throw (ErrUnsupported (Type_ rec)).

(** What [Redirect] does with the record it has resolved: the two guards
    on the record, the path block and the block of its type. *)
Definition dispatch (host path : string) (rec : Record_) (r : Request)
  : M unit :=
  if negb (contains (Enable c) (Type_ rec)) then
    throw ErrOptionDisabled
  else if negb (String.eqb (Re rec) "")
          && negb (String.eqb (From rec) "") then
    fallback "to" (Code rec)
  else
    p <- pathStage rec r ;;
    match p with
    | None => ret tt
    | Some (rec, r) => typeStage host path rec r
    end.

(** [Redirect] the request depending on the redirect record found.  Its
    [getRecord] and [addRecordToContext] are [GetRecord] and
    [addToContext] of record.go.  [Ok tt] is a nil error. *)
Definition Redirect (r : Request) : M unit :=
  emit (EvHeaderSet "Server" "TXTDirect") ;;;
  let host := Host r in
  let path := Path r in
  if String.eqb path "/favicon.ico" then
    let redirect := Join [host; path] "" in
    emit (EvHeaderSet "Content-Type" "") ;;;
    emit (EvHeaderAdd "Status-Code" (Itoa StatusNotFound)) ;;;
    emit (EvHTTPRedirect redirect StatusNotFound)
  else if isIP host then
    fallback "global" StatusMovedPermanently
  else
    g <- attempt (GetRecord host r) ;;
    match g with
    | inr _ => fallback "global" StatusFound
    | inl rec => dispatch host path rec (addToContext rec r)
    end.

End Program.

(** ** Concrete collaborators for the examples *)

Module Sample.

Fixpoint lookup (k : string) (m : list (string * list string))
  : option (list string) :=
  match m with
  | [] => None
  | (k', v) :: m' => if String.eqb k' k then Some v else lookup k m'
  end.

(** A world with the TXT records [dns].  Placeholder expansion and
    percent-decoding leave a text without placeholders or escapes as it
    is; [url.Parse] reports "missing protocol scheme" for a text that
    starts with a colon and returns any other text used here unchanged.
    The gometa handler answers with [gometaErr]; the others succeed. *)
Definition world (dns : list (string * list string))
           (gometaErr : option string) : Env :=
  mkEnv (fun _ zone => lookup zone dns)
        (fun _ s => Some s)
        (fun s => if HasPrefix s ":" then None else Some s)
        (fun s => Some s)
        (fun _ rec => (rec, None))
        (fun _ _ => None)
        (fun _ _ => None)
        (fun _ _ _ => gometaErr)
        (fun _ _ => None).

Definition request (host path : string) : Request :=
  mkRequest host path "" "" None None.

Definition goGetRequest (host path : string) : Request :=
  mkRequest host path "" "1" None None.


(** Three upstream zones: the first has no record, the other two do. *)
Definition upstreamWorld : Env :=
  world [("_redirect.two.example.", ["to=https://example.com/"]);
         ("_redirect.three.example.", ["to=https://example.org/"])] None.

Definition upstreamRec : Record_ :=
  set_Use ["_redirect.one.example"; "_redirect.two.example";
           "_redirect.three.example"] zeroRecord.

(** Zones with one record of each kind. *)
Definition zones : Env :=
  world [("_redirect.h.example.com.",
          ["v=txtv0;to=https://example.com/;code=301;>X-Test=1"]);
         ("_redirect.two.example.com.", ["to=https://a/"; "to=https://b/"]);
         ("_redirect.bad.example.com.", ["code=abc"]);
         ("_redirect.use.example.com.", ["use=_redirect.up.example.com"]);
         ("_redirect.both.example.com.",
          ["to=https://example.com/;re=x;from=y"]);
         ("_redirect.p.example.com.", ["type=path;root=https://example.com/"]);
         ("_redirect.d.example.com.", ["type=dockerv2;to=https://r/"]);
         ("_redirect.x.example.com.", ["type=proxy;to=https://r/"]);
         ("_redirect.u.example.com.", ["type=custom;to=https://r/"])] None.

Definition allTypes : Config :=
  mkConfig ["host"; "path"; "proxy"; "dockerv2"; "gometa"; "gomods";
            "custom"] "".

End Sample.

(** Number of Fallback Policy invocations in a trace. *)
Definition isFallback (ev : Event) : bool :=
  match ev with
  | EvFallback _ _ => true
  | _ => false
  end.

Definition fallbackCount (t : list Event) : nat :=
  length (filter isFallback t).

Definition isLookup (ev : Event) : bool :=
  match ev with
  | EvLookupTXT _ _ => true
  | _ => false
  end.








(** A call that does not return a value: an error or a panic. *)
Definition failed {A} (m : M A) : Prop := forall a, result m <> Ok a.

(** A Fallback-only answer of the dispatcher: nil error, one invocation. *)
Definition answeredByFallback (m : M unit) : Prop :=
  result m = Ok tt /\ fallbackCount (trace m) = 1%nat.

(** ** Vocabulary of the statements *)



(** The lookup of a DNS name fails: the resolver reports an error, or its
    first string is empty. *)
Definition lookupFails (env : Env) (c : Config) (name : string) : Prop :=
  LookupTXT env (Resolver c) name = None \/
  exists rest, LookupTXT env (Resolver c) name = Some (""%string :: rest).

(** The lookup of a DNS name answers with [txts], the first non-empty. *)
Definition lookupAnswers (env : Env) (c : Config) (name : string)
           (txts : list string) : Prop :=
  LookupTXT env (Resolver c) name = Some txts /\
  exists t0 rest, txts = t0 :: rest /\ t0 <> ""%string.

Definition lookupEv (c : Config) (name : string) : Event :=
  EvLookupTXT (Resolver c) name.

(** The request resolves to the TXT string [str]: after the lookups [tq]
    of the stages of GetRecord, [str] is the one answer that is parsed. *)
Definition resolvesTo (env : Env) (c : Config) (req : Request)
           (str : string) (tq : list Event) : Prop :=
  Forall (fun ev => isLookup ev = true) tq /\
  GetRecord env c (Host req) req =
    (tq ++ trace (parseAnswer env c [str] req),
     result (parseAnswer env c [str] req)).

(** The events of resolving each zone of a list in turn. *)
Definition tracesOf (env : Env) (c : Config) (r : Request)
           (zones : list string) : list Event :=
  flat_map (fun z => trace (GetRecord env c z r)) zones.

(** Number of occurrences of a byte in a string. *)
Fixpoint countByte (ch : ascii) (s : string) : nat :=
  match s with
  | EmptyString => 0
  | String a s' => (if Ascii.eqb a ch then 1 else 0) + countByte ch s'
  end.

(** The prefixes that the [switch] of ParseRecord tests, in its order. *)
Definition knownKeys : list string :=
  ["code="; "from="; "re="; "ref="; "root="; "to="; "type="; "use="; "v=";
   "vcs="; "website="; ">"]%string.

(** The segment falls into one of the cases of the [switch] other than
    the default one. *)
Definition recognized (l : string) : bool := existsb (HasPrefix l) knownKeys.

(** [m[k]] on a Go map. *)
Fixpoint mapGet (k : string) (m : list (string * string)) : option string :=
  match m with
  | [] => None
  | (k', v) :: m' => if String.eqb k' k then Some v else mapGet k m'
  end.

(** The header writes of GetRecord for the headers of a record. *)
Definition headerEvents (h : list (string * string)) : list Event :=
  map (fun kv => EvHeaderSet (fst kv) (snd kv)) h.

(** The one effect of the parser: the global fallback with the
    permanent-redirect status. *)
Definition parserFallback : Event :=
  EvFallback "global" StatusMovedPermanently.

(** The zones of the [use=] segments, in the order of the segments. *)
Definition useZones (segs : list string) : list string :=
  map (fun l => TrimPrefix l "use=")
      (filter (fun l => HasPrefix l "use=") segs).

(** A segment that one of the cases of the [switch] rejects by itself. *)
Definition malformed (env : Env) (req : Request) (l : string) : Prop :=
  (HasPrefix l "code=" = true /\ Atoi (TrimPrefix l "code=") = None)
  \/ (HasPrefix l "ref=" = true /\ ParseBool (TrimPrefix l "ref=") = None)
  \/ (HasPrefix l "use=" = true /\
      HasPrefix (TrimPrefix l "use=") "_redirect." = false)
  \/ (exists k, In k ["from="; "root="; "to="]%string /\
                HasPrefix l k = true /\
                parsePlaceholders env req (TrimPrefix l k) = None)
  \/ (recognized l = false /\ countByte "=" l <> 1%nat).

(** * Properties *)

(** ** The model on the inputs of the test suite *)

Example Split_semicolons :
  Split "v=txtv0; to=x;" ";" = ["v=txtv0"; " to=x"; ""]%string.
Proof. reflexivity. Qed.

Example TrimSpace_blanks :
  TrimSpace "  to=x " = "to=x"%string
  /\ TrimSpace (bytes [194; 160; 9] ++ "x y" ++ bytes [226; 128; 137])
     = "x y"%string.
Proof. split; reflexivity. Qed.

Example Atoi_samples :
  Atoi "302" = Some 302%Z /\ Atoi "-7" = Some (-7)%Z /\ Atoi "" = None
  /\ Atoi "1:8080" = None /\ Atoi "9223372036854775808" = None.
Proof. repeat split; reflexivity. Qed.

Example isIP_table :
  map isIP ["https://example.test"; "http://example.test";
            "http://192.168.test.subdomain.test"; "192.168.1.1";
            "https://122.221.122.221";
            "FE80:0000:0000:0000:0202:B3FF:FE1E:8329";
            "FE80::0202:B3FF:FE1E:8329"]%string
  = [false; false; false; true; true; true; true].
Proof. reflexivity. Qed.

(** An IPv4 address with a port has two parts around [:] and a last label
    that is not a number. *)
Example isIP_ipv4_with_port :
  isIP "127.0.0.1:8080" = false /\ isIP "[::1]:8080" = true.
Proof. split; reflexivity. Qed.

Example contains_table :
  contains ["test"; "txtdirect"]%string "test" = true
  /\ contains ["test"; "txtdirect"; "contains"]%string "txtdirect" = true
  /\ contains ["test"; "txtdirect"; "random"]%string "contains" = false.
Proof. repeat split; reflexivity. Qed.

Example absoluteZone_samples :
  absoluteZone "a.b.c" = "_redirect.a.b.c."%string
  /\ absoluteZone "a.b.c:8080" = "_redirect.a.b.c."%string
  /\ absoluteZone "_redirect.about.host.host.example.com."
     = "_redirect.about.host.host.example.com."%string.
Proof. repeat split; reflexivity. Qed.

Example ParseRecord_host_record :
  ParseRecord (Sample.world [] None) (mkConfig ["host"] "")
    "v=txtv0;to=https://plain.host.test;type=host;ref=true;>TestHeader=TestValue;code=302"
    (Sample.request "host.host.example.com" "/")
  = ([], Ok (mkRecord "txtv0" "https://plain.host.test" 302 "host" [] "" ""
                      "" "" "" true [("TestHeader", "TestValue")]%string)).
Proof. reflexivity. Qed.

Example Redirect_blacklisted :
  Redirect (Sample.world [] None) (mkConfig ["path"] "")
           (Sample.request "txtdirect.com" "/favicon.ico")
  = ([EvHeaderSet "Server" "TXTDirect"; EvHeaderSet "Content-Type" "";
      EvHeaderAdd "Status-Code" "404";
      EvHTTPRedirect "txtdirect.com/favicon.ico" 404], Ok tt).
Proof. reflexivity. Qed.

Example Redirect_host_record :
  Redirect (Sample.world
              [("_redirect.h.example.com.",
                ["type=host;to=https://example.com/;code=301"%string])] None)
           (mkConfig ["host"] "") (Sample.request "h.example.com" "/")
  = ([EvHeaderSet "Server" "TXTDirect";
      EvLookupTXT "" "_redirect.h.example.com.";
      EvHeaderAdd "Cache-Control" "max-age=604800";
      EvHeaderAdd "Status-Code" "301";
      EvHTTPRedirect "https://example.com/" 301], Ok tt).
Proof. reflexivity. Qed.

(** ** Strings *)

Lemma HasPrefix_app (p v : string) : HasPrefix (p ++ v) p = true.
Proof.
  induction p as [|a p IH]; simpl; [reflexivity|].
  now rewrite Ascii.eqb_refl.
Qed.

Lemma substring_whole (v : string) : substring 0 (String.length v) v = v.
Proof.
  induction v as [|a v IH]; simpl; [reflexivity|]. now rewrite IH.
Qed.

Lemma TrimPrefix_app (p v : string) : TrimPrefix (p ++ v) p = v.
Proof.
  unfold TrimPrefix. rewrite HasPrefix_app.
  induction p as [|a p IH]; simpl.
  - rewrite Nat.sub_0_r. apply substring_whole.
  - exact IH.
Qed.

Lemma HasPrefix_split (p l : string) :
  HasPrefix l p = true -> l = (p ++ TrimPrefix l p)%string.
Proof.
  revert l. induction p as [|a p IH]; intros l H.
  - simpl. unfold TrimPrefix. simpl. rewrite Nat.sub_0_r.
    now rewrite substring_whole.
  - destruct l as [|b l]; simpl in H; [discriminate|].
    apply andb_true_iff in H as [Hab Hl].
    apply Ascii.eqb_eq in Hab. subst b.
    specialize (IH l Hl). unfold TrimPrefix in *.
    simpl. rewrite Ascii.eqb_refl, Hl in *. simpl.
    f_equal. exact IH.
Qed.

(** ** The trace monad *)

Lemma bind_Ok_inv {A B} (m : M A) (k : A -> M B) (b : B) :
  result (bind m k) = Ok b ->
  exists t a, m = (t, Ok a) /\ result (k a) = Ok b.
Proof.
  destruct m as [t [a|e|]]; simpl; try discriminate.
  destruct (k a) as [t' rb] eqn:Hk. simpl. intros ->.
  exists t, a. rewrite Hk. auto.
Qed.

Lemma bind_Ok_eq {A B} (m : M A) (k : A -> M B) t a :
  m = (t, Ok a) -> bind m k = (t ++ trace (k a), result (k a)).
Proof.
  intros ->. simpl. now destruct (k a).
Qed.

Lemma failed_bind {A B} (m : M A) (k : A -> M B) :
  failed m -> failed (bind m k).
Proof.
  intros Hm b Hb. apply bind_Ok_inv in Hb as (t & a & -> & _).
  exact (Hm a eq_refl).
Qed.

Lemma failed_bind_cont {A B} (m : M A) (k : A -> M B) :
  (forall a, failed (k a)) -> failed (bind m k).
Proof.
  intros Hk b Hb. apply bind_Ok_inv in Hb as (t & a & _ & Hb).
  exact (Hk a b Hb).
Qed.

Lemma failed_throw {A} (e : error) : failed (@throw A e).
Proof. intros a H. discriminate. Qed.

Lemma trace_bind {A B} (m : M A) (k : A -> M B) :
  trace (bind m k) =
  trace m ++ match result m with
             | Ok a => trace (k a)
             | _ => []
             end.
Proof.
  destruct m as [t [a|e|]]; simpl; try now rewrite app_nil_r.
  now destruct (k a).
Qed.

Lemma trace_attempt {A} (m : M A) : trace (attempt m) = trace m.
Proof. now destruct m as [t [a|e|]]. Qed.

(** ** The loop of ParseRecord, key by key *)

Section Segments.

Variable env : Env.
Variable req : Request.


Lemma checkLen_short l r :
  (String.length l <= 255)%nat -> checkLen l r = ret r.
Proof.
  intros H. unfold checkLen.
  destruct (255 <? String.length l)%nat eqn:E; [|reflexivity].
  apply Nat.ltb_lt in E. lia.
Qed.

Ltac segment_eq :=
  intros; unfold parseSegment; rewrite ?TrimPrefix_app; reflexivity.

Lemma parseSegment_code v r :
  parseSegment env req ("code=" ++ v) r =
  match Atoi v with
  | None => throw ErrStatusCode
  | Some i => checkLen v (set_Code i r)
  end.
Proof. segment_eq. Qed.

Lemma parseSegment_from v r :
  parseSegment env req ("from=" ++ v) r =
  match parsePlaceholders env req v with
  | None => throw ErrPlaceholder
  | Some l' => checkLen v (set_From l' r)
  end.
Proof. segment_eq. Qed.


Lemma parseSegment_ref v r :
  parseSegment env req ("ref=" ++ v) r =
  match ParseBool v with
  | None => fallback "global" StatusMovedPermanently ;;; throw ErrParseBool
  | Some b => checkLen ("ref=" ++ v) (set_Ref b r)
  end.
Proof. segment_eq. Qed.

Lemma parseSegment_root v r :
  parseSegment env req ("root=" ++ v) r =
  match parsePlaceholders env req v with
  | None => throw ErrPlaceholder
  | Some l' => u <- ParseURI env l' ;; checkLen v (set_Root u r)
  end.
Proof. segment_eq. Qed.

Lemma parseSegment_to v r :
  parseSegment env req ("to=" ++ v) r =
  match parsePlaceholders env req v with
  | None => throw ErrPlaceholder
  | Some l' => u <- ParseURI env l' ;; checkLen v (set_To u r)
  end.
Proof. segment_eq. Qed.


Lemma parseSegment_use v r :
  parseSegment env req ("use=" ++ v) r =
  if negb (HasPrefix v "_redirect.") then throw ErrZoneInvalid
  else checkLen v (set_Use (Use r ++ [v]) r).
Proof. segment_eq. Qed.




Lemma parseSegment_header v r :
  parseSegment env req (">" ++ v) r =
  match nth_error (Split (">" ++ v) "=") 1 with
  | None => panic
  | Some h1 =>
      match PathUnescape env h1 with
      | None => throw ErrUnescape
      | Some h =>
          let name := match nth 0 (Split (">" ++ v) "=") "" with
                      | String _ rest => rest
                      | EmptyString => ""
                      end in
          checkLen (">" ++ v) (set_Headers (mapSet name h (Headers r)) r)
      end
  end.
Proof. segment_eq. Qed.

End Segments.

(** ** Failure and invariants of the loop *)

Section Loop.

Variable env : Env.
Variable c : Config.
Variable req : Request.

Lemma parseSegments_failed l segs :
  In l segs ->
  (forall r, failed (parseSegment env req l r)) ->
  forall r, failed (parseSegments env req segs r).
Proof.
  intros Hin Hl. induction segs as [|x segs IH]; intros r; [destruct Hin|].
  simpl. destruct Hin as [->|Hin].
  - apply failed_bind, Hl.
  - apply failed_bind_cont. intros r'. now apply IH.
Qed.

Lemma ParseRecord_failed l str :
  In l (segments str) ->
  (forall r, failed (parseSegment env req l r)) ->
  failed (ParseRecord env c str req).
Proof.
  intros Hin Hl. unfold ParseRecord.
  apply failed_bind. now apply parseSegments_failed with (l := l).
Qed.

(** A property of the record that every iteration keeps holds of the
    record that the loop returns. *)
Lemma parseSegments_inv (P : Record_ -> Prop) segs :
  (forall l r r', In l segs -> P r ->
                  result (parseSegment env req l r) = Ok r' -> P r') ->
  forall r0 r, P r0 -> result (parseSegments env req segs r0) = Ok r -> P r.
Proof.
  induction segs as [|x segs IH]; intros Hstep r0 r H0 Hr.
  - simpl in Hr. now inversion Hr; subst.
  - simpl in Hr. apply bind_Ok_inv in Hr as (t & r1 & Hx & Hr).
    apply (IH (fun l a b Hl => Hstep l a b (or_intror Hl)) r1 r); [|exact Hr].
    apply (Hstep x r0 r1 (or_introl eq_refl) H0). now rewrite Hx.
Qed.

Ltac run_segment :=
  unfold parseSegment, checkLen, ParseURI, fallback, emit, throw, ret, panic;
  repeat (match goal with
          | |- context [if ?b then _ else _] => destruct b eqn:?
          | |- context [match ?x with _ => _ end] => destruct x eqn:?
          end; simpl);
  try discriminate.



(** The parser writes nothing but fallbacks. *)
Lemma parseSegment_trace l r ev :
  In ev (trace (parseSegment env req l r)) -> isFallback ev = true.
Proof.
  run_segment; simpl; intuition (subst; reflexivity).
Qed.

Lemma parseSegments_trace segs r ev :
  In ev (trace (parseSegments env req segs r)) -> isFallback ev = true.
Proof.
  revert r. induction segs as [|x segs IH]; intros r; simpl; [tauto|].
  rewrite trace_bind. intros H. apply in_app_or in H as [H|H].
  - now apply parseSegment_trace in H.
  - destruct (result (parseSegment env req x r)); [|destruct H..].
    now apply IH in H.
Qed.

Lemma ParseRecord_trace str ev :
  In ev (trace (ParseRecord env c str req)) -> isFallback ev = true.
Proof.
  unfold ParseRecord. rewrite trace_bind. intros H.
  apply in_app_or in H as [H|H].
  - now apply parseSegments_trace in H.
  - destruct (result (parseSegments env req (segments str) zeroRecord))
      as [r| |]; [|destruct H..].
    revert H. unfold finishRecord, fallback, emit, throw, ret.
    repeat (match goal with
            | |- context [if ?b then _ else _] => destruct b eqn:?
            end; simpl);
      intuition (subst; reflexivity).
Qed.

End Loop.

(** ** The 255-byte bound *)




(** ** The version *)




(** ** Header segments *)

Lemma Split_no_sep s sep :
  ContainsByte s sep = false -> Split s sep = [s].
Proof.
  induction s as [|a s IH]; simpl; [reflexivity|].
  intros H. apply orb_false_iff in H as [Ha Hs].
  rewrite Ha, (IH Hs). reflexivity.
Qed.

(** A header segment without [=] makes the loop body index past the end
    of the split segment. *)
Lemma parseSegment_header_no_eq env req v r :
  ContainsByte v "=" = false ->
  parseSegment env req (">" ++ v) r = panic.
Proof.
  intros H. rewrite parseSegment_header.
  rewrite Split_no_sep; [reflexivity|].
  simpl. exact H.
Qed.

(** C10: on the header segment [>Name], which has no [=], ParseRecord
    neither returns a record nor an error: [header[1]] is out of range
    and the call panics. *)
Theorem C10_header_without_value_panics env c req :
  ParseRecord env c ">Name" req = ([], Panic).
Proof.
  unfold ParseRecord.
  change (segments ">Name") with [(">" ++ "Name")%string].
  cbn [parseSegments]. rewrite parseSegment_header_no_eq; reflexivity.
Qed.

(** ** URIs *)

(** C4, as the spec words it, fails: a [to=] value that [url.Parse]
    rejects triggers the fallback, yet the parse goes on and returns a
    record. *)
Lemma C4_invalid_uri_is_not_an_error :
  let env := Sample.world [] None in
  let req := Sample.request "example.com" "/" in
  parsePlaceholders env req ":foo" = Some ":foo"%string /\
  urlParse env ":foo" = None /\
  ~ failed (ParseRecord env (mkConfig ["path"] "") "type=path;to=:foo" req).
Proof.
  cbv zeta. repeat split. intros H. eapply H. vm_compute. reflexivity.
Qed.

(** C4 (amended): for a [root=] or [to=] directive whose expanded value is
    not a parseable URI the global Fallback Policy is invoked once, with
    the permanent-redirect status, the field is stored empty, and the loop
    goes on without an error (the value being within the length bound). *)
Theorem C4_invalid_uri_falls_back_and_continues env req v v' r :
  parsePlaceholders env req v = Some v' ->
  urlParse env v' = None ->
  (String.length v <= 255)%nat ->
  parseSegment env req ("to=" ++ v) r =
    ([EvFallback "global" StatusMovedPermanently], Ok (set_To "" r))
  /\ parseSegment env req ("root=" ++ v) r =
    ([EvFallback "global" StatusMovedPermanently], Ok (set_Root "" r)).
Proof.
  intros Hp Hu Hlen.
  rewrite parseSegment_to, parseSegment_root, Hp.
  unfold ParseURI. rewrite Hu. simpl.
  rewrite !checkLen_short by exact Hlen.
  split; reflexivity.
Qed.

Lemma C4_invalid_uri_falls_back_and_continues_witness :
  parseSegment (Sample.world [] None) (Sample.request "example.com" "/")
               ("to=" ++ ":foo") zeroRecord =
    ([EvFallback "global" StatusMovedPermanently], Ok (set_To "" zeroRecord)).
Proof.
  apply (proj1 (C4_invalid_uri_falls_back_and_continues
                  (Sample.world [] None) (Sample.request "example.com" "/")
                  ":foo" ":foo" zeroRecord eq_refl eq_refl
                  ltac:(vm_compute; lia))).
Defined.

(** ** Records that point upstream, and host records without a target *)

Section Finish.

Variable env : Env.
Variable req : Request.

(** C9: when the loop leaves a record with a non-empty [Use], ParseRecord
    returns it after the dockerv2 rule and the default status code alone:
    the type is not defaulted, no fallback is added to the trace, and the
    enabled types of the configuration are not looked at. *)
Theorem C9_use_skips_type_validation c str t r :
  parseSegments env req (segments str) zeroRecord = (t, Ok r) ->
  Use r <> [] ->
  ParseRecord env c str req =
    (t, if String.eqb (Type_ r) "dockerv2" && String.eqb (To r) ""
        then Err ErrDockerTo
        else Ok (if (Code r =? 0)%Z then set_Code StatusFound r else r))
  /\ (forall r', result (ParseRecord env c str req) = Ok r' ->
                 Type_ r' = Type_ r /\ Use r' = Use r)
  /\ (forall c', ParseRecord env c' str req = ParseRecord env c str req).
Proof.
  intros Hloop Huse.
  assert (Hfin : forall c0, ParseRecord env c0 str req =
    (t, if String.eqb (Type_ r) "dockerv2" && String.eqb (To r) ""
        then Err ErrDockerTo
        else Ok (if (Code r =? 0)%Z then set_Code StatusFound r else r))).
  { intros c0. unfold ParseRecord.
    rewrite (bind_Ok_eq _ _ t r Hloop). unfold finishRecord.
    destruct (String.eqb (Type_ r) "dockerv2" && String.eqb (To r) "");
      simpl; [now rewrite app_nil_r|].
    assert (Hlen : (length (Use r) =? 0)%nat = false).
    { destruct (Use r); [contradiction|reflexivity]. }
    destruct (Code r =? 0)%Z; simpl; rewrite Hlen; simpl;
      now rewrite app_nil_r. }
  split; [apply Hfin|split].
  - intros r' Hr'. rewrite Hfin in Hr'. simpl in Hr'.
    destruct (String.eqb (Type_ r) "dockerv2" && String.eqb (To r) "");
      [discriminate|].
    inversion Hr'; subst. destruct (Code r =? 0)%Z; simpl; auto.
  - intros c'. now rewrite !Hfin.
Qed.


End Finish.

Lemma C9_use_skips_type_validation_witness :
  ParseRecord (Sample.world [] None) (mkConfig [] "")
              "use=_redirect.example.com;type=unknown"
              (Sample.request "example.com" "/") =
  ([], Ok (mkRecord "" "" 302 "unknown" ["_redirect.example.com"%string]
                    "" "" "" "" "" false [])).
Proof.
  apply (proj1 (C9_use_skips_type_validation
                  (Sample.world [] None) (Sample.request "example.com" "/")
                  (mkConfig [] "") "use=_redirect.example.com;type=unknown"
                  [] (mkRecord "" "" 0 "unknown"
                               ["_redirect.example.com"%string]
                               "" "" "" "" "" false [])
                  ltac:(vm_compute; reflexivity)
                  ltac:(simpl; discriminate))).
Defined.

(** ** Zone names *)

Lemma Split_nonempty s sep : Split s sep <> [].
Proof.
  destruct s as [|a s]; simpl; [discriminate|].
  destruct (Ascii.eqb a sep); [discriminate|].
  destruct (Split s sep); discriminate.
Qed.

Lemma Split_app_sep a sep rest :
  ContainsByte a sep = false ->
  Split (a ++ String sep rest) sep = a :: Split rest sep.
Proof.
  induction a as [|x a IH]; simpl; intros H.
  - now rewrite Ascii.eqb_refl.
  - apply orb_false_iff in H as [Hx Ha].
    rewrite Hx, (IH Ha). reflexivity.
Qed.

Lemma Join_Split s sep : Join (Split s sep) (String sep "") = s.
Proof.
  unfold Join. induction s as [|x s IH]; simpl; [reflexivity|].
  destruct (Ascii.eqb x sep) eqn:E.
  - apply Ascii.eqb_eq in E. subst x.
    destruct (Split s sep) eqn:Hs; [now apply Split_nonempty in Hs|].
    change (String.concat (String sep "") ("" :: s0 :: l))
      with (String sep (String.concat (String sep "") (s0 :: l))).
    now rewrite IH.
  - destruct (Split s sep) as [|h [|y l]] eqn:Hs.
    + now apply Split_nonempty in Hs.
    + simpl in *. now rewrite IH.
    + simpl in *. now rewrite IH.
Qed.

Lemma ContainsByte_app a b ch :
  ContainsByte (a ++ b) ch = ContainsByte a ch || ContainsByte b ch.
Proof.
  induction a as [|x a IH]; simpl; [reflexivity|].
  now rewrite IH, orb_assoc.
Qed.

Lemma append_empty_r (s : string) : (s ++ "")%string = s.
Proof. induction s as [|x s IH]; simpl; [reflexivity|]. now rewrite IH. Qed.

Lemma append_assoc (a b d : string) :
  ((a ++ b) ++ d)%string = (a ++ (b ++ d))%string.
Proof. induction a as [|x a IH]; simpl; [reflexivity|]. now rewrite IH. Qed.

Lemma strrev_app a b : strrev (a ++ b) = (strrev b ++ strrev a)%string.
Proof.
  induction a as [|x a IH]; simpl.
  - now rewrite append_empty_r.
  - now rewrite IH, append_assoc.
Qed.

Lemma HasSuffix_app_byte a b ch :
  b <> ""%string ->
  HasSuffix (a ++ b) (String ch "") = HasSuffix b (String ch "").
Proof.
  intros Hb. unfold HasSuffix. rewrite strrev_app. simpl.
  destruct b as [|y b]; [contradiction|]. simpl.
  destruct (strrev b); reflexivity.
Qed.

(** The DNS name that [query] looks up for a plain zone: no port, not
    yet under the base zone, no final dot. *)
Lemma absoluteZone_plain h :
  h <> ""%string ->
  ContainsByte h ":" = false ->
  HasPrefix h basezone = false ->
  HasSuffix h "." = false ->
  absoluteZone h = ("_redirect." ++ h ++ ".")%string.
Proof.
  intros Hne Hport Hbase Hdot. unfold absoluteZone.
  rewrite Hport, Hbase. cbn [negb Join String.concat].
  change (basezone ++ "." ++ h)%string with ("_redirect." ++ h)%string.
  rewrite (HasSuffix_app_byte "_redirect." h "." Hne), Hdot.
  now rewrite append_assoc.
Qed.

(** ** The zone resolver *)

Section Resolver.

Variable env : Env.
Variable c : Config.

Lemma query_fails zone :
  lookupFails env c (absoluteZone zone) ->
  exists e, query env c zone = ([lookupEv c (absoluteZone zone)], Err e).
Proof.
  unfold query, lookupFails. intros [H|[rest H]]; rewrite H; simpl; eauto.
Qed.

Lemma query_answers zone txts :
  lookupAnswers env c (absoluteZone zone) txts ->
  query env c zone = ([lookupEv c (absoluteZone zone)], Ok txts).
Proof.
  unfold query, lookupAnswers. intros (H & t0 & rest & -> & Hne).
  rewrite H. simpl. apply String.eqb_neq in Hne. now rewrite Hne.
Qed.

Lemma trace_query zone :
  trace (query env c zone) = [lookupEv c (absoluteZone zone)].
Proof.
  unfold query. destruct (LookupTXT _ _ _) as [[|t0 l]|]; simpl; auto.
  now destruct (String.eqb t0 "").
Qed.

Lemma setHeaders_trace h ev :
  In ev (trace (setHeaders h)) -> isLookup ev = false.
Proof.
  induction h as [|[k v] h IH]; [simpl; tauto|].
  cbn [setHeaders]. rewrite trace_bind. simpl.
  intros [<-|H]; [reflexivity|]. now apply IH.
Qed.

(** Parsing the answer and setting its headers looks nothing up. *)
Lemma parseAnswer_trace txts r ev :
  In ev (trace (parseAnswer env c txts r)) -> isLookup ev = false.
Proof.
  unfold parseAnswer. destruct txts as [|t0 [|t1 l]]; simpl; try tauto.
  rewrite trace_bind, trace_attempt. intros H.
  apply in_app_or in H as [H|H].
  - apply ParseRecord_trace in H. now destruct ev.
  - destruct (ParseRecord env c t0 r) as [t [rec|e|]]; simpl in H;
      try tauto.
    rewrite trace_bind in H. apply in_app_or in H as [H|H].
    + now apply setHeaders_trace in H.
    + destruct (result (setHeaders (Headers rec))); destruct H.
Qed.

Lemma filter_lookup_parseAnswer txts r :
  filter isLookup (trace (parseAnswer env c txts r)) = [].
Proof.
  assert (H := parseAnswer_trace txts r).
  induction (trace (parseAnswer env c txts r)) as [|ev t IH];
    [reflexivity|].
  simpl. rewrite (H ev (or_introl eq_refl)).
  apply IH. intros ev' Hin. apply H. now right.
Qed.

(** A successful first lookup is parsed at once. *)
Lemma GetRecord_apex host r txts :
  lookupAnswers env c (absoluteZone host) txts ->
  GetRecord env c host r =
    (lookupEv c (absoluteZone host) :: trace (parseAnswer env c txts r),
     result (parseAnswer env c txts r)).
Proof.
  intros H. assert (Hq := query_answers host txts H).
  destruct H as (_ & t0 & rest & -> & Hne).
  unfold GetRecord. rewrite Hq. cbn [attempt bind ret app].
  apply String.eqb_neq in Hne. rewrite Hne. cbn [bind ret app].
  now destruct (parseAnswer env c (t0 :: rest) r).
Qed.

(** The apex stage: the zone of the host answers with one string. *)
Lemma resolvesTo_apex req str :
  lookupAnswers env c (absoluteZone (Host req)) [str] ->
  resolvesTo env c req str [lookupEv c (absoluteZone (Host req))].
Proof.
  intros H. split; [repeat constructor|].
  now rewrite (GetRecord_apex (Host req) req [str] H).
Qed.

End Resolver.

(** ** The wildcard chain *)

Section Wildcards.

Variable env : Env.
Variable c : Config.

(** A host [a.rest]: [a] is its leftmost label; the host carries no port,
    is not itself under the base zone and has no final dot. *)
Variables a rest : string.
Let host : string := (a ++ "." ++ rest)%string.

Hypothesis label : ContainsByte a "." = false.
Hypothesis noPort : ContainsByte host ":" = false.
Hypothesis noBase : HasPrefix host basezone = false.
Hypothesis restNonEmpty : rest <> ""%string.
Hypothesis noFinalDot : HasSuffix rest "." = false.

Let apex : string := ("_redirect." ++ host ++ ".")%string.
Let apexWild : string := ("_redirect._." ++ host ++ ".")%string.
Let broad : string := ("_redirect._." ++ rest ++ ".")%string.

Lemma host_nonempty : host <> ""%string.
Proof. unfold host. destruct a; discriminate. Qed.

Lemma host_noFinalDot : HasSuffix host "." = false.
Proof.
  unfold host. rewrite HasSuffix_app_byte by discriminate.
  now rewrite (HasSuffix_app_byte "." rest "." restNonEmpty).
Qed.

Lemma zone_apex : absoluteZone host = apex.
Proof.
  apply absoluteZone_plain;
    auto using host_nonempty, host_noFinalDot.
Qed.

Lemma zone_apexWild : absoluteZone ("_." ++ host) = apexWild.
Proof.
  rewrite absoluteZone_plain; try reflexivity; try discriminate.
  - simpl. exact noPort.
  - rewrite (HasSuffix_app_byte "_." host "." host_nonempty).
    apply host_noFinalDot.
Qed.

Lemma host_broad : Join ("_" :: tl (Split host ".")) "." = ("_." ++ rest)%string.
Proof.
  unfold host. change ("." ++ rest)%string with (String "." rest).
  rewrite (Split_app_sep a "." rest label). cbn [tl].
  assert (H := Join_Split rest "."). unfold Join in *.
  destruct (Split rest ".") eqn:Hs; [now apply Split_nonempty in Hs|].
  change (String.concat "." ("_"%string :: s :: l))
    with ("_." ++ String.concat "." (s :: l))%string.
  now rewrite H.
Qed.

Lemma zone_broad : absoluteZone ("_." ++ rest) = broad.
Proof.
  rewrite absoluteZone_plain; try reflexivity; try discriminate.
  - simpl. assert (H := noPort). unfold host in H.
    rewrite ContainsByte_app in H. apply orb_false_iff in H as [_ H].
    simpl in H. exact H.
  - now rewrite (HasSuffix_app_byte "_." rest "." restNonEmpty).
Qed.

Let ev (name : string) : Event := lookupEv c name.

(** C5: when the apex lookup fails, GetRecord next looks up the apex
    wildcard, provided the request's context holds no record yet, and
    after a failure there (or at once, when the context holds records) the
    broad wildcard; a failure of the broad wildcard is returned to the
    caller.  An apex wildcard that answers is parsed and nothing further
    is looked up. *)
Theorem C5_wildcard_chain (r : Request) :
  lookupFails env c apex ->
  (ctxRecords r = None ->
     (exists t, trace (GetRecord env c host r) = ev apex :: ev apexWild :: t)
     /\ (forall txts, lookupAnswers env c apexWild txts ->
           filter isLookup (trace (GetRecord env c host r))
           = [ev apex; ev apexWild])
     /\ (lookupFails env c apexWild ->
           exists t, trace (GetRecord env c host r)
                     = ev apex :: ev apexWild :: ev broad :: t)
     /\ (lookupFails env c apexWild -> lookupFails env c broad ->
           exists e, GetRecord env c host r
                     = ([ev apex; ev apexWild; ev broad], Err e)))
  /\ (ctxRecords r <> None ->
        (exists t, trace (GetRecord env c host r) = ev apex :: ev broad :: t)
        /\ (lookupFails env c broad ->
              exists e, GetRecord env c host r
                        = ([ev apex; ev broad], Err e))).
Proof.
  intros Hapex.
  rewrite <- zone_apex in Hapex.
  destruct (query_fails env c host Hapex) as [e1 Hq1].
  rewrite zone_apex in Hq1.
  assert (Hbroad : forall K : list string -> M Record_,
            exists t, trace (bind (query env c (Join ("_" :: tl (Split host ".")) ".")) K)
                      = ev broad :: t).
  { intros K. rewrite trace_bind, trace_query, host_broad, zone_broad.
    simpl. eauto. }
  assert (Hbroad_fails : lookupFails env c broad ->
            exists e, query env c (Join ("_" :: tl (Split host ".")) ".")
                      = ([ev broad], Err e)).
  { intros H. rewrite host_broad. rewrite <- zone_broad in H.
    destruct (query_fails env c _ H) as [e He].
    rewrite zone_broad in He. eauto. }
  split.
  - intros Hctx.
    assert (Hwild_fails : lookupFails env c apexWild ->
              exists e, query env c ("_." ++ host) = ([ev apexWild], Err e)).
    { intros H. rewrite <- zone_apexWild in H.
      destruct (query_fails env c _ H) as [e He].
      rewrite zone_apexWild in He. eauto. }
    repeat split.
    + unfold GetRecord. rewrite Hq1. cbn [attempt bind]. rewrite Hctx.
      match goal with
      | |- context [bind (attempt (query env c ("_." ++ host))) ?K] =>
          assert (Ht := trace_bind (attempt (query env c ("_." ++ host))) K);
          destruct (bind (attempt (query env c ("_." ++ host))) K) as [t b]
      end.
      rewrite trace_attempt, trace_query, zone_apexWild in Ht.
      simpl in Ht. subst t. simpl. eauto.
    + intros txts Hans. rewrite <- zone_apexWild in Hans.
      assert (Hq2 := query_answers env c _ txts Hans).
      destruct Hans as (_ & t0 & l & -> & Hne).
      apply String.eqb_neq in Hne.
      unfold GetRecord. rewrite Hq1. cbn [attempt bind]. rewrite Hctx, Hq2.
      cbn [attempt bind ret app]. rewrite Hne. cbn [bind ret app].
      assert (Hf := filter_lookup_parseAnswer env c (t0 :: l) r).
      destruct (parseAnswer env c (t0 :: l) r) as [t b].
      rewrite zone_apexWild. simpl in *. now rewrite Hf.
    + intros Hw. destruct (Hwild_fails Hw) as [e2 Hq2].
      unfold GetRecord. rewrite Hq1. cbn [attempt bind]. rewrite Hctx, Hq2.
      cbn [attempt bind ret app].
      match goal with
      | |- context [bind (query env c ?z) ?K] =>
          destruct (Hbroad K) as [t Ht];
          destruct (bind (query env c z) K) as [t' b]
      end.
      simpl in *. subst t'. eauto.
    + intros Hw Hb. destruct (Hwild_fails Hw) as [e2 Hq2].
      destruct (Hbroad_fails Hb) as [e3 Hq3].
      unfold GetRecord. rewrite Hq1. cbn [attempt bind]. rewrite Hctx, Hq2.
      cbn [attempt bind ret app]. rewrite Hq3. cbn [bind app]. eauto.
  - intros Hctx. destruct (ctxRecords r) as [rs|] eqn:Hrs; [|contradiction].
    split.
    + unfold GetRecord. rewrite Hq1. cbn [attempt bind]. rewrite Hrs.
      cbn [attempt bind ret app].
      match goal with
      | |- context [bind (query env c ?z) ?K] =>
          destruct (Hbroad K) as [t Ht];
          destruct (bind (query env c z) K) as [t' b]
      end.
      simpl in *. subst t'. eauto.
    + intros Hb. destruct (Hbroad_fails Hb) as [e3 Hq3].
      unfold GetRecord. rewrite Hq1. cbn [attempt bind]. rewrite Hrs.
      cbn [attempt bind ret app]. rewrite Hq3. cbn [bind app]. eauto.
Qed.

End Wildcards.

Lemma C5_wildcard_chain_witness :
  exists e,
    GetRecord (Sample.world [] None) (mkConfig ["host"] "") "a.b.c"
              (Sample.request "a.b.c" "/") =
    ([EvLookupTXT "" "_redirect.a.b.c."; EvLookupTXT "" "_redirect._.a.b.c.";
      EvLookupTXT "" "_redirect._.b.c."], Err e).
Proof.
  destruct (C5_wildcard_chain (Sample.world [] None) (mkConfig ["host"] "")
              "a" "b.c" eq_refl eq_refl eq_refl
              ltac:(discriminate) eq_refl
              (Sample.request "a.b.c" "/")
              ltac:(left; reflexivity)) as [H _].
  destruct (H eq_refl) as (_ & _ & _ & H3).
  apply H3; left; reflexivity.
Defined.

(** ** The upstream chain *)

Section Upstream.

Variable env : Env.
Variable c : Config.
Variable r : Request.

Lemma upstreamLoop_skip z zones e :
  result (GetRecord env c z r) = Err e ->
  upstreamLoop env c (z :: zones) r =
    (trace (GetRecord env c z r) ++ trace (upstreamLoop env c zones r),
     result (upstreamLoop env c zones r)).
Proof.
  cbn [upstreamLoop]. destruct (GetRecord env c z r) as [t x]. simpl.
  intros ->. simpl. now destruct (upstreamLoop env c zones r).
Qed.

Lemma upstreamLoop_hit z zones t up :
  GetRecord env c z r = (t, Ok up) ->
  upstreamLoop env c (z :: zones) r = (t, Ok (up, z)).
Proof.
  cbn [upstreamLoop]. intros ->. simpl. now rewrite app_nil_r.
Qed.

(** C6: UpstreamRecord resolves the zones of [Use] in their order and
    returns the record and the name of the first zone that GetRecord
    resolves without error; its events are those of the zones up to that
    one, whatever the later zones are.  When every zone fails, it returns
    the upstream error. *)
Theorem C6_first_upstream_wins (rec : Record_) :
  (forall pre zone post t up,
      Use rec = pre ++ zone :: post ->
      (forall z, In z pre -> exists e, result (GetRecord env c z r) = Err e) ->
      GetRecord env c zone r = (t, Ok up) ->
      UpstreamRecord env c rec r = (tracesOf env c r pre ++ t, Ok (up, zone)))
  /\ ((forall z, In z (Use rec) ->
                 exists e, result (GetRecord env c z r) = Err e) ->
      UpstreamRecord env c rec r = (tracesOf env c r (Use rec), Err ErrUpstream)).
Proof.
  unfold UpstreamRecord. split.
  - intros pre zone post t up -> Hpre Hzone.
    induction pre as [|z pre IH].
    + now apply upstreamLoop_hit.
    + destruct (Hpre z (or_introl eq_refl)) as [e He].
      rewrite <- app_comm_cons.
      rewrite (upstreamLoop_skip z _ e He), IH.
      * unfold tracesOf. simpl. now rewrite app_assoc.
      * intros z' Hz'. apply Hpre. now right.
  - induction (Use rec) as [|z zones IH]; intros Hall; [reflexivity|].
    destruct (Hall z (or_introl eq_refl)) as [e He].
    rewrite (upstreamLoop_skip z _ e He), IH.
    + reflexivity.
    + intros z' Hz'. apply Hall. now right.
Qed.

End Upstream.

Lemma C6_first_upstream_wins_witness :
  UpstreamRecord Sample.upstreamWorld (mkConfig ["host"] "")
                 Sample.upstreamRec (Sample.request "example.com" "/")
  = (tracesOf Sample.upstreamWorld (mkConfig ["host"] "")
              (Sample.request "example.com" "/") ["_redirect.one.example"]
     ++ [EvLookupTXT "" "_redirect.two.example."],
     Ok (set_Code 302 (set_Type "host"
           (set_To "https://example.com/" zeroRecord)),
         "_redirect.two.example"%string)).
Proof.
  apply (proj1 (C6_first_upstream_wins
                  Sample.upstreamWorld (mkConfig ["host"] "")
                  (Sample.request "example.com" "/") Sample.upstreamRec)
               ["_redirect.one.example"%string] "_redirect.two.example"%string
               ["_redirect.three.example"%string]).
  - reflexivity.
  - intros z [<-|[]]. eexists. vm_compute. reflexivity.
  - vm_compute. reflexivity.
Defined.

(** ** The dispatcher *)

Section Dispatcher.

Variable env : Env.
Variable c : Config.
Variable r : Request.

Let server : Event := EvHeaderSet "Server" "TXTDirect".

Hypothesis notBlacklisted : Path r <> "/favicon.ico"%string.

Lemma Redirect_ip :
  isIP (Host r) = true ->
  Redirect env c r =
    ([server; EvFallback "global" StatusMovedPermanently], Ok tt).
Proof.
  intros Hip. unfold Redirect.
  apply String.eqb_neq in notBlacklisted. rewrite notBlacklisted, Hip.
  reflexivity.
Qed.

Lemma Redirect_unresolved t e :
  isIP (Host r) = false ->
  GetRecord env c (Host r) r = (t, Err e) ->
  Redirect env c r = (server :: t ++ [EvFallback "global" StatusFound], Ok tt).
Proof.
  intros Hip Hget. unfold Redirect.
  apply String.eqb_neq in notBlacklisted.
  rewrite notBlacklisted, Hip, Hget. reflexivity.
Qed.

Lemma Redirect_resolved t rec :
  isIP (Host r) = false ->
  GetRecord env c (Host r) r = (t, Ok rec) ->
  Redirect env c r =
    (server :: t ++ trace (dispatch env c (Host r) (Path r) rec
                                    (addToContext rec r)),
     result (dispatch env c (Host r) (Path r) rec (addToContext rec r))).
Proof.
  intros Hip Hget. unfold Redirect.
  apply String.eqb_neq in notBlacklisted.
  rewrite notBlacklisted, Hip, Hget. cbn [emit attempt bind app].
  now destruct (dispatch env c (Host r) (Path r) rec (addToContext rec r)).
Qed.

(** Past its two guards, a record that is not of the path type goes to
    the block of its type. *)
Lemma dispatch_type host path rec r' :
  contains (Enable c) (Type_ rec) = true ->
  Re rec = ""%string \/ From rec = ""%string ->
  Type_ rec <> "path"%string ->
  dispatch env c host path rec r' = typeStage env host path rec r'.
Proof.
  intros Hen Hre Hty. unfold dispatch, pathStage. rewrite Hen.
  assert (H : negb (String.eqb (Re rec) "")
              && negb (String.eqb (From rec) "") = false).
  { destruct Hre as [-> | ->]; simpl; [reflexivity|].
    now rewrite andb_false_r. }
  rewrite H. apply String.eqb_neq in Hty. rewrite Hty. simpl.
  now destruct (typeStage env host path rec r').
Qed.

End Dispatcher.

(** *** Literal IP hosts *)

(** The first event of GetRecord is the lookup of the host's own zone. *)
Lemma GetRecord_first_lookup env c host r :
  exists t, trace (GetRecord env c host r)
            = lookupEv c (absoluteZone host) :: t.
Proof.
  unfold GetRecord. rewrite trace_bind, trace_attempt, trace_query.
  simpl. eauto.
Qed.

(** C3: the IPv4 address with a port [127.0.0.1:8080] is not taken for an
    IP address by [isIP], which sees two parts around [:] and the last
    label [1:8080]; so, whatever the resolver and the configuration are,
    Redirect goes past the IP guard and looks up the zone of the address.
    With no record in the DNS it tries all three zones before the
    dispatcher falls back with the status 302. *)
Theorem C3_ipv4_with_port_is_looked_up env c :
  let r := Sample.request "127.0.0.1:8080" "/" in
  isIP (Host r) = false
  /\ (exists t, trace (Redirect env c r)
                = EvHeaderSet "Server" "TXTDirect"
                  :: EvLookupTXT (Resolver c) "_redirect.127.0.0.1." :: t)
  /\ Redirect (Sample.world [] None) (mkConfig ["host"] "") r
     = ([EvHeaderSet "Server" "TXTDirect";
         EvLookupTXT "" "_redirect.127.0.0.1.";
         EvLookupTXT "" "_redirect._.127.0.0.1.";
         EvLookupTXT "" "_redirect._.0.0.1.";
         EvFallback "global" StatusFound], Ok tt).
Proof.
  cbv zeta. split; [reflexivity|]. split; [|reflexivity].
  unfold Redirect.
  change (isIP (Host (Sample.request "127.0.0.1:8080" "/"))) with false.
  cbn [Path Host Sample.request String.eqb Ascii.eqb Bool.eqb].
  rewrite trace_bind. cbn [emit trace result fst snd app].
  rewrite trace_bind, trace_attempt.
  destruct (GetRecord_first_lookup env c "127.0.0.1:8080"
              (Sample.request "127.0.0.1:8080" "/")) as [t Ht].
  rewrite Ht. simpl. eauto.
Qed.

(** *** Errors and the fallback *)

(** C1, as the spec words it, fails: the error of the gometa handler is
    returned to the caller and the Fallback Policy is not invoked. *)
Lemma C1_handler_error_is_returned :
  let env := Sample.world
               [("_redirect.example.com.",
                 ["v=txtv0;to=https://example.com/;type=gometa"%string])]
               (Some "render failed"%string) in
  let r := Sample.goGetRequest "example.com" "/pkg" in
  let m := Redirect env (mkConfig ["gometa"] "") r in
  result m = Err (ErrHandler "render failed")
  /\ fallbackCount (trace m) = 0%nat
  /\ ~ answeredByFallback m.
Proof.
  cbv zeta. repeat split. intros [H _]. vm_compute in H. discriminate.
Qed.

Section FailureSemantics.

Variable env : Env.
Variable c : Config.
Variable r : Request.

Let server : Event := EvHeaderSet "Server" "TXTDirect".

(** C1 (amended): when GetRecord returns an error, or the final-record
    lookup of the path type, the proxy handler, the dockerv2 handler or
    the placeholder expansion of the host type does, Redirect itself
    invokes the Fallback Policy exactly once after the events of the
    resolution and returns nil.  An error of the gometa or of the gomods
    handler is returned to the caller and Redirect invokes no fallback. *)
Theorem C1_errors_and_fallback :
  Path r <> "/favicon.ico"%string ->
  isIP (Host r) = false ->
  (forall t e,
      GetRecord env c (Host r) r = (t, Err e) ->
      Redirect env c r
      = (server :: t ++ [EvFallback "global" StatusFound], Ok tt))
  /\ (forall t rec,
        GetRecord env c (Host r) r = (t, Ok rec) ->
        contains (Enable c) (Type_ rec) = true ->
        Re rec = ""%string \/ From rec = ""%string ->
        let r' := addToContext rec r in
        (Type_ rec = "path"%string ->
         Path r <> "/"%string -> Path r <> ""%string ->
         forall rec' e, getFinalRecord env r' rec = (rec', Some e) ->
         Redirect env c r
         = (server :: t ++ [EvFinalRecord; EvFallback "to" (Code rec')], Ok tt))
        /\ (Type_ rec = "proxy"%string ->
            forall msg, proxyRequest env r' rec = Some msg ->
            Redirect env c r
            = (server :: t ++ [EvProxy; EvFallback "to" (Code rec)], Ok tt))
        /\ (Type_ rec = "dockerv2"%string ->
            Contains (UserAgent r) "Docker-Client" = true ->
            forall msg, redirectDockerv2 env r' rec = Some msg ->
            Redirect env c r
            = (server :: t ++ [EvDockerv2; EvFallback "to" (Code rec)], Ok tt))
        /\ (Type_ rec = "host"%string ->
            ContainsAny (To rec) "{}" = true ->
            parsePlaceholders env r' (To rec) = None ->
            Redirect env c r
            = (server :: t ++ [EvFallback "to" 0], Ok tt))
        /\ (Type_ rec = "gometa"%string ->
            GoGet r = "1"%string ->
            forall msg, gometa env rec (Host r) (Path r) = Some msg ->
            Redirect env c r
            = (server :: t ++ [EvGometa], Err (ErrHandler msg)))
        /\ (Type_ rec = "gomods"%string ->
            forall msg, gomods env r' (Path r) = Some msg ->
            Redirect env c r
            = (server :: t ++ [EvGomods], Err (ErrHandler msg)))).
Proof.
  intros Hpath Hip. split.
  - intros t e Hget. exact (Redirect_unresolved env c r Hpath t e Hip Hget).
  - intros t rec Hget Hen Hre r'.
    rewrite (Redirect_resolved env c r Hpath t rec Hip Hget).
    fold r'. repeat split.
    + intros Hty Hroot Hempty rec' e Hfin.
      unfold dispatch, pathStage. rewrite Hen.
      assert (H : negb (String.eqb (Re rec) "")
                  && negb (String.eqb (From rec) "") = false).
      { destruct Hre as [-> | ->]; simpl; [reflexivity|].
        now rewrite andb_false_r. }
      rewrite H, Hty. cbn [negb String.eqb Ascii.eqb Bool.eqb].
      apply String.eqb_neq in Hroot, Hempty.
      change (Path r') with (Path r). rewrite Hroot, Hempty, Hfin.
      reflexivity.
    + intros Hty msg Hh.
      rewrite dispatch_type by (try assumption; rewrite Hty; discriminate).
      unfold typeStage. rewrite Hty, Hh. reflexivity.
    + intros Hty Hua msg Hh.
      rewrite dispatch_type by (try assumption; rewrite Hty; discriminate).
      unfold typeStage. rewrite Hty. change (UserAgent r') with (UserAgent r).
      cbn [String.eqb Ascii.eqb Bool.eqb]. rewrite Hua, Hh. reflexivity.
    + intros Hty Hany Hp.
      rewrite dispatch_type by (try assumption; rewrite Hty; discriminate).
      unfold typeStage, getBaseTarget. rewrite Hty, Hany, Hp. reflexivity.
    + intros Hty Hgo msg Hh.
      rewrite dispatch_type by (try assumption; rewrite Hty; discriminate).
      unfold typeStage. rewrite Hty. change (GoGet r') with (GoGet r).
      rewrite Hgo, Hh. reflexivity.
    + intros Hty msg Hh.
      rewrite dispatch_type by (try assumption; rewrite Hty; discriminate).
      unfold typeStage. rewrite Hty, Hh. reflexivity.
Qed.

End FailureSemantics.

Lemma C1_errors_and_fallback_witness :
  Redirect (Sample.world [] None) (mkConfig ["host"] "")
           (Sample.request "a.b.c" "/") =
  (EvHeaderSet "Server" "TXTDirect"
   :: [EvLookupTXT "" "_redirect.a.b.c."; EvLookupTXT "" "_redirect._.a.b.c.";
       EvLookupTXT "" "_redirect._.b.c."]
   ++ [EvFallback "global" StatusFound], Ok tt).
Proof.
  apply (proj1 (C1_errors_and_fallback
                  (Sample.world [] None) (mkConfig ["host"] "")
                  (Sample.request "a.b.c" "/")
                  ltac:(simpl; discriminate) eq_refl)
               _ ErrLookup).
  vm_compute. reflexivity.
Defined.

(** *** Host records without a target *)

Section ParserFallbacks.

Variable env : Env.
Variable req : Request.

Ltac run_segment :=
  unfold parseSegment, checkLen, ParseURI, fallback, emit, throw, ret, panic;
  repeat (match goal with
          | |- context [if ?b then _ else _] => destruct b eqn:?
          | |- context [match ?x with _ => _ end] => destruct x eqn:?
          end; simpl);
  try discriminate.


End ParserFallbacks.






(** * Further properties of the code *)

(** ** contains *)

(** [contains] is membership in the slice. *)
Theorem X1_contains_iff_In (array : list string) (word : string) :
  contains array word = true <-> In word array.
Proof.
  induction array as [|w rest IH]; simpl.
  - split; [discriminate|tauto].
  - destruct (String.eqb w word) eqn:E.
    + apply String.eqb_eq in E. split; auto.
    + apply String.eqb_neq in E. rewrite IH. split; [auto|].
      intros [H|H]; [contradiction|exact H].
Qed.

(** ** absoluteZone *)

Lemma HasPrefix_app_r (s p x : string) :
  HasPrefix s p = true -> HasPrefix (s ++ x) p = true.
Proof.
  revert s. induction p as [|b p IH]; intros s H; [reflexivity|].
  destruct s as [|a s]; simpl in *; [discriminate|].
  apply andb_true_iff in H as [Hab Hs]. rewrite Hab. simpl. now apply IH.
Qed.

Lemma HasSuffix_dot_appended (s : string) : HasSuffix (s ++ ".") "." = true.
Proof. unfold HasSuffix. rewrite strrev_app. reflexivity. Qed.

Lemma Split_head_no_sep s sep :
  ContainsByte (nth 0 (Split s sep) ""%string) sep = false.
Proof.
  induction s as [|a s IH]; simpl; [reflexivity|].
  destruct (Ascii.eqb a sep) eqn:E; [reflexivity|].
  destruct (Split s sep) as [|h t]; simpl in *; now rewrite E.
Qed.

Lemma ContainsByte_append_dot s :
  ContainsByte s ":" = false -> ContainsByte (s ++ ".") ":" = false.
Proof. intros H. rewrite ContainsByte_app, H. reflexivity. Qed.

(** The three steps of [absoluteZone], one after the other. *)
Lemma absoluteZone_steps zone :
  let z1 := if ContainsByte zone ":" then nth 0 (Split zone ":") ""%string
            else zone in
  let z2 := if negb (HasPrefix z1 basezone)
            then ("_redirect." ++ z1)%string else z1 in
  absoluteZone zone = if HasSuffix z2 "." then z2 else (z2 ++ ".")%string.
Proof. reflexivity. Qed.

(** The name that [absoluteZone] returns is canonical whatever the zone
    is: it has no port, lies under the base zone and ends with a dot; so
    making it absolute once more changes nothing. *)
Theorem X2_absoluteZone_canonical (zone : string) :
  ContainsByte (absoluteZone zone) ":" = false
  /\ HasPrefix (absoluteZone zone) basezone = true
  /\ HasSuffix (absoluteZone zone) "." = true
  /\ absoluteZone (absoluteZone zone) = absoluteZone zone.
Proof.
  assert (H3 : ContainsByte (absoluteZone zone) ":" = false
               /\ HasPrefix (absoluteZone zone) basezone = true
               /\ HasSuffix (absoluteZone zone) "." = true).
  { rewrite absoluteZone_steps. cbv zeta.
    set (z1 := if ContainsByte zone ":" then _ else zone).
    assert (H1 : ContainsByte z1 ":" = false).
    { unfold z1. destruct (ContainsByte zone ":") eqn:E; [|exact E].
      apply Split_head_no_sep. }
    set (z2 := if negb (HasPrefix z1 basezone) then _ else z1).
    assert (H2 : ContainsByte z2 ":" = false /\ HasPrefix z2 basezone = true).
    { unfold z2. destruct (HasPrefix z1 basezone) eqn:E; simpl; auto. }
    destruct H2 as [H2 H2'].
    destruct (HasSuffix z2 ".") eqn:E; repeat split; auto.
    - now apply ContainsByte_append_dot.
    - now apply HasPrefix_app_r.
    - apply HasSuffix_dot_appended. }
  destruct H3 as (Hc & Hp & Hs). repeat split; auto.
  rewrite (absoluteZone_steps (absoluteZone zone)). cbv zeta.
  rewrite Hc, Hp. cbn [negb]. now rewrite Hs.
Qed.

Lemma absoluteZone_port (zone port : string) :
  ContainsByte zone ":" = false ->
  absoluteZone (zone ++ ":" ++ port) = absoluteZone zone.
Proof.
  intros H. rewrite !absoluteZone_steps. cbv zeta.
  rewrite ContainsByte_app, H. cbn [orb ContainsByte Ascii.eqb Bool.eqb].
  change (zone ++ ":" ++ port)%string with (zone ++ String ":" port)%string.
  rewrite (Split_app_sep zone ":" port H). reflexivity.
Qed.

(** A port after the zone is dropped. *)
Theorem X3_absoluteZone_drops_port (zone port : string) :
  ContainsByte zone ":" = false ->
  absoluteZone (zone ++ ":" ++ port) = absoluteZone zone.
Proof.
  intros H. rewrite !absoluteZone_steps. cbv zeta.
  rewrite ContainsByte_app, H. cbn [orb ContainsByte Ascii.eqb Bool.eqb].
  change (zone ++ ":" ++ port)%string with (zone ++ String ":" port)%string.
  rewrite (Split_app_sep zone ":" port H). reflexivity.
Qed.

Lemma X3_absoluteZone_drops_port_witness :
  absoluteZone ("a.b.c" ++ ":" ++ "8080") = absoluteZone "a.b.c".
Proof. apply (X3_absoluteZone_drops_port "a.b.c" "8080"). reflexivity. Defined.

(** ** query and GetRecord *)

Section ResolverMore.

Variable env : Env.
Variable c : Config.

Lemma query_Ok_inv zone t txts :
  query env c zone = (t, Ok txts) ->
  t = [lookupEv c (absoluteZone zone)]
  /\ LookupTXT env (Resolver c) (absoluteZone zone) = Some txts
  /\ exists t0 rest, txts = t0 :: rest /\ t0 <> ""%string.
Proof.
  unfold query.
  destruct (LookupTXT env (Resolver c) (absoluteZone zone))
    as [[|t0 rest]|]; simpl; try discriminate.
  destruct (String.eqb t0 "") eqn:E; simpl; [discriminate|].
  intros H. inversion H; subst. repeat split.
  exists t0, rest. split; [reflexivity|]. now apply String.eqb_neq.
Qed.

(** A [query] that returns without error has made one lookup, of the
    absolute zone, and hands back the resolver's answer, which has a
    first string that is not empty: the [txts[0]] of GetRecord is in
    range after it. *)
Theorem X4_query_answer_not_empty zone t txts :
  query env c zone = (t, Ok txts) ->
  t = [lookupEv c (absoluteZone zone)]
  /\ LookupTXT env (Resolver c) (absoluteZone zone) = Some txts
  /\ exists t0 rest, txts = t0 :: rest /\ t0 <> ""%string.
Proof.
  unfold query.
  destruct (LookupTXT env (Resolver c) (absoluteZone zone))
    as [[|t0 rest]|]; simpl; try discriminate.
  destruct (String.eqb t0 "") eqn:E; simpl; [discriminate|].
  intros H. inversion H; subst. repeat split.
  exists t0, rest. split; [reflexivity|]. now apply String.eqb_neq.
Qed.

Lemma setHeaders_events h :
  setHeaders h = (headerEvents h, Ok tt).
Proof.
  induction h as [|[k v] h IH]; [reflexivity|].
  cbn [setHeaders]. rewrite IH. reflexivity.
Qed.

(** An apex zone that answers with a number of strings other than one is
    a hard error: nothing is parsed and no further zone is looked up. *)
Theorem X5_GetRecord_needs_one_string host r txts :
  lookupAnswers env c (absoluteZone host) txts ->
  length txts <> 1%nat ->
  GetRecord env c host r =
    ([lookupEv c (absoluteZone host)], Err (ErrRecordCount (length txts))).
Proof.
  intros Hans Hlen. rewrite (GetRecord_apex env c host r txts Hans).
  destruct txts as [|t0 [|t1 l]]; try reflexivity.
  now contradiction Hlen.
Qed.

(** When the apex zone answers with one string that ParseRecord accepts,
    GetRecord returns its record and sets each of the record's headers on
    the response, after the events of the parse. *)
Theorem X6_GetRecord_sets_headers host r str t rec :
  lookupAnswers env c (absoluteZone host) [str] ->
  ParseRecord env c str r = (t, Ok rec) ->
  GetRecord env c host r =
    (lookupEv c (absoluteZone host) :: t ++ headerEvents (Headers rec),
     Ok rec).
Proof.
  intros Hans Hparse. rewrite (GetRecord_apex env c host r [str] Hans).
  unfold parseAnswer. rewrite Hparse. cbn [attempt bind].
  rewrite setHeaders_events. simpl. now rewrite app_nil_r.
Qed.

(** When ParseRecord rejects the one string of the apex zone, GetRecord
    returns its error wrapped, sets no header and does not go on to the
    wildcard zones. *)
Theorem X7_GetRecord_wraps_parse_error host r str t e :
  lookupAnswers env c (absoluteZone host) [str] ->
  ParseRecord env c str r = (t, Err e) ->
  GetRecord env c host r =
    (lookupEv c (absoluteZone host) :: t, Err (ErrParseRecord e)).
Proof.
  intros Hans Hparse. rewrite (GetRecord_apex env c host r [str] Hans).
  unfold parseAnswer. rewrite Hparse. simpl. now rewrite app_nil_r.
Qed.

(** The three outcomes of a [query] and its one event. *)
Lemma query_shape zone :
  exists res,
    query env c zone = ([lookupEv c (absoluteZone zone)], res)
    /\ forall txts, res = Ok txts ->
                    exists t0 rest, txts = t0 :: rest /\ t0 <> ""%string.
Proof.
  destruct (query env c zone) as [t res] eqn:Hq.
  assert (Ht := trace_query env c zone). rewrite Hq in Ht. simpl in Ht.
  subst t. exists res. split; [reflexivity|].
  intros txts ->. now destruct (query_Ok_inv zone _ _ Hq) as (_ & _ & H).
Qed.

Lemma lookups_of_answer txts r :
  length (filter isLookup (trace (parseAnswer env c txts r))) = 0%nat.
Proof. now rewrite filter_lookup_parseAnswer. Qed.

(** GetRecord starts with the lookup of the host's own zone and makes at
    most three lookups in all, at most two when the context of the
    request already holds a record. *)
Theorem X8_GetRecord_lookup_bound host r :
  (exists t, trace (GetRecord env c host r)
             = lookupEv c (absoluteZone host) :: t)
  /\ (length (filter isLookup (trace (GetRecord env c host r))) <= 3)%nat
  /\ (ctxRecords r <> None ->
      (length (filter isLookup (trace (GetRecord env c host r))) <= 2)%nat).
Proof.
  unfold GetRecord.
  destruct (query_shape host) as (res1 & Hq1 & Hok1).
  destruct (query_shape ("_." ++ host)) as (res2 & Hq2 & Hok2).
  destruct (query_shape (Join ("_" :: tl (Split host ".")) "."))
    as (res3 & Hq3 & Hok3).
  rewrite Hq1.
  assert (Hwild : forall t0 l,
            t0 <> ""%string ->
            let m := parseAnswer env c (t0 :: l) r in
            length (filter isLookup (trace m)) = 0%nat).
  { intros. apply lookups_of_answer. }
  destruct res1 as [txts1|e1|]; cbn [attempt bind app].
  - destruct (Hok1 txts1 eq_refl) as (t0 & l & -> & Hne).
    apply String.eqb_neq in Hne.
    assert (H0 := lookups_of_answer (t0 :: l) r).
    destruct (ctxRecords r); cbn [ret bind app]; rewrite Hne;
      cbn [bind ret app];
      destruct (parseAnswer env c (t0 :: l) r) as [t b]; simpl in *;
      rewrite H0; repeat split; eauto; intros; lia.
  - destruct (ctxRecords r) as [rs|] eqn:Hctx.
    + cbn [ret bind app]. rewrite Hq3.
      destruct res3 as [txts3|e3|]; cbn [bind app].
      * assert (H0 := lookups_of_answer txts3 r).
        destruct (parseAnswer env c txts3 r) as [t b]. simpl in *.
        rewrite H0. repeat split; eauto; intros; simpl; lia.
      * simpl. repeat split; eauto; intros; lia.
      * simpl. repeat split; eauto; intros; lia.
    + rewrite Hq2. destruct res2 as [txts2|e2|]; cbn [attempt bind app].
      * destruct (Hok2 txts2 eq_refl) as (t0 & l & -> & Hne).
        apply String.eqb_neq in Hne. rewrite Hne. cbn [bind ret app].
        assert (H0 := lookups_of_answer (t0 :: l) r).
        destruct (parseAnswer env c (t0 :: l) r) as [t b]. simpl in *.
        rewrite H0. repeat split; eauto; try (intros; lia);
          try (intros H; now contradiction H).
      * cbn [ret bind app]. rewrite Hq3.
        destruct res3 as [txts3|e3|]; cbn [bind app].
        -- assert (H0 := lookups_of_answer txts3 r).
           destruct (parseAnswer env c txts3 r) as [t b]. simpl in *.
           rewrite H0. repeat split; eauto; try (intros; simpl; lia);
          try (intros H; now contradiction H).
        -- simpl. repeat split; eauto; try (intros; lia);
          try (intros H; now contradiction H).
        -- simpl. repeat split; eauto; try (intros; lia);
          try (intros H; now contradiction H).
      * simpl. repeat split; eauto; try (intros; lia);
          try (intros H; now contradiction H).
  - simpl. repeat split; eauto; intros; lia.
Qed.

End ResolverMore.

(** ** ParseRecord *)

Lemma HasPrefix_first l a p b q :
  HasPrefix l (String a p) = true -> HasPrefix l (String b q) = true -> a = b.
Proof.
  destruct l as [|x l]; simpl; [discriminate|].
  intros H1 H2. apply andb_true_iff in H1 as [H1 _], H2 as [H2 _].
  apply Ascii.eqb_eq in H1, H2. congruence.
Qed.

Lemma length_Split s sep : length (Split s sep) = S (countByte sep s).
Proof.
  induction s as [|a s IH]; simpl; [reflexivity|].
  destruct (Ascii.eqb a sep); simpl; [now rewrite IH|].
  destruct (Split s sep); simpl in *; congruence.
Qed.

Lemma Split_app_last s sep :
  Split (s ++ String sep "") sep = Split s sep ++ [""%string].
Proof.
  induction s as [|a s IH]; simpl.
  - now rewrite Ascii.eqb_refl.
  - destruct (Ascii.eqb a sep); [now rewrite IH|].
    rewrite IH. destruct (Split s sep) eqn:Hs; [|reflexivity].
    now apply Split_nonempty in Hs.
Qed.

Section Parser.

Variable env : Env.
Variable c : Config.
Variable req : Request.

Ltac run_segment :=
  unfold parseSegment, checkLen, ParseURI, fallback, emit, throw, ret, panic;
  repeat (match goal with
          | |- context [if ?b then _ else _] => destruct b eqn:?
          | |- context [match ?x with _ => _ end] => destruct x eqn:?
          end; simpl);
  try discriminate.

Ltac prefix_clash :=
  match goal with
  | H1 : HasPrefix ?l (String ?a ?p) = true,
    H2 : HasPrefix ?l (String ?b ?q) = true |- _ =>
      let E := fresh in
      assert (E := HasPrefix_first l a p b q H1 H2); discriminate E
  end.

Ltac run_finish :=
  unfold finishRecord, fallback, emit, throw, ret;
  match goal with
  | |- context [if ?b then (_, Err ErrDockerTo) else _] => destruct b eqn:?
  end; simpl;
  try match goal with
      | |- context [(Code ?x =? 0)%Z] => destruct (Code x =? 0)%Z eqn:?
      end; simpl;
  try match goal with
      | |- context [String.eqb (Type_ ?x) ""] =>
          destruct (String.eqb (Type_ x) "") eqn:?
      end; simpl;
  repeat (match goal with
          | |- context [if ?b then _ else _] => destruct b eqn:?
          end; simpl);
  try discriminate.

Lemma parseSegments_app pre post r0 :
  parseSegments env req (pre ++ post) r0 =
  bind (parseSegments env req pre r0) (fun r => parseSegments env req post r).
Proof.
  revert r0. induction pre as [|l pre IH]; intros r0; simpl.
  - now destruct (parseSegments env req post r0).
  - destruct (parseSegment env req l r0) as [t [r1|e|]]; simpl; auto.
    rewrite IH. destruct (parseSegments env req pre r1) as [t1 [r2|e|]];
      simpl; auto.
    destruct (parseSegments env req post r2). now rewrite app_assoc.
Qed.

Lemma parseSegment_Code l r r' :
  result (parseSegment env req l r) = Ok r' ->
  Code r' = Code r \/ HasPrefix l "code=" = true.
Proof. run_segment; intros H; inversion H; subst; simpl; auto. Qed.

Lemma parseSegment_Use l r r' :
  result (parseSegment env req l r) = Ok r' ->
  Use r' = Use r ++ useZones [l].
Proof.
  unfold useZones. cbn [filter map].
  run_segment; intros H; inversion H; subst; simpl;
    rewrite ?app_nil_r; auto; prefix_clash.
Qed.

Lemma parseSegment_Use_prefix l r r' :
  result (parseSegment env req l r) = Ok r' ->
  Forall (fun z => HasPrefix z "_redirect." = true) (Use r) ->
  Forall (fun z => HasPrefix z "_redirect." = true) (Use r').
Proof.
  run_segment; intros H; inversion H; subst; simpl; auto.
  intros Hall. apply Forall_app. split; [exact Hall|].
  repeat constructor.
  match goal with
  | E : negb (HasPrefix _ "_redirect.") = false |- _ =>
      now apply negb_false_iff in E
  end.
Qed.

Lemma useZones_app a b : useZones (a ++ b) = useZones a ++ useZones b.
Proof. unfold useZones. now rewrite filter_app, map_app. Qed.

Lemma parseSegments_Use segs r0 r :
  result (parseSegments env req segs r0) = Ok r ->
  Use r = Use r0 ++ useZones segs.
Proof.
  revert r0. induction segs as [|l segs IH]; intros r0 H.
  - simpl in H. inversion H; subst. unfold useZones. simpl.
    now rewrite app_nil_r.
  - simpl in H. apply bind_Ok_inv in H as (t & r1 & Hl & Hr).
    rewrite (IH r1 Hr).
    assert (H1 : result (parseSegment env req l r0) = Ok r1)
      by now rewrite Hl.
    rewrite (parseSegment_Use l r0 r1 H1).
    change (l :: segs) with ([l] ++ segs).
    now rewrite useZones_app, app_assoc.
Qed.

Lemma finishRecord_Use r r' :
  result (finishRecord c r) = Ok r' -> Use r' = Use r.
Proof.
  run_finish; intros H; inversion H; subst; simpl; auto;
    (destruct (Use r); [reflexivity|discriminate]).
Qed.

(** The code of an accepted record is never zero, unless it is the zero
    record of the host-without-target fallback; without a [code=]
    directive it is 302. *)
Theorem X9_ParseRecord_code_default str r :
  result (ParseRecord env c str req) = Ok r ->
  r = zeroRecord
  \/ (Code r <> 0%Z
      /\ ((forall l, In l (segments str) -> HasPrefix l "code=" = false) ->
          Code r = StatusFound)).
Proof.
  intros Hr. unfold ParseRecord in Hr.
  apply bind_Ok_inv in Hr as (t & r1 & Hloop & Hfin).
  assert (Hfin' : r = zeroRecord \/
                  (Code r <> 0%Z /\ (Code r1 = 0%Z -> Code r = StatusFound))).
  { revert Hfin. run_finish; intros H; inversion H; subst; simpl; auto;
      right; split; try discriminate; auto;
      try (match goal with
           | E : (Code _ =? 0)%Z = false |- _ => apply Z.eqb_neq in E
           end; try assumption; intros; contradiction). }
  destruct Hfin' as [->|[Hne H0]]; [now left|right].
  split; [exact Hne|]. intros Hnocode. apply H0.
  apply (parseSegments_inv env req (fun r => Code r = 0%Z) (segments str))
    with (r0 := zeroRecord); [|reflexivity|now rewrite Hloop].
  intros l a b Hl Ha Hb.
  apply parseSegment_Code in Hb as [Hb|Hb]; [now rewrite Hb|].
  rewrite (Hnocode l Hl) in Hb. discriminate.
Qed.

(** An accepted record without [use=] that is not the zero record has a
    type, the type is enabled in the configuration, and a host record has
    a target. *)
Theorem X10_ParseRecord_type_enabled str r :
  result (ParseRecord env c str req) = Ok r ->
  Use r = [] ->
  r = zeroRecord
  \/ (contains (Enable c) (Type_ r) = true
      /\ Type_ r <> ""%string
      /\ (Type_ r = "host"%string -> To r <> ""%string)).
Proof.
  intros Hr Huse. unfold ParseRecord in Hr.
  apply bind_Ok_inv in Hr as (t & r1 & _ & Hfin).
  revert Hfin Huse.
  run_finish; intros H; inversion H; subst; simpl; auto; intros Huse;
    try (rewrite Huse in *; discriminate); right;
    repeat match goal with
           | E : negb _ = false |- _ => apply negb_false_iff in E
           | E : (_ && _)%bool = false |- _ => apply andb_false_iff in E
           | E : String.eqb _ _ = true |- _ => apply String.eqb_eq in E
           | E : String.eqb _ _ = false |- _ => apply String.eqb_neq in E
           end; simpl in *;
    repeat split; auto; try discriminate; try congruence;
    intros Hh Hto;
    repeat match goal with
           | E : _ \/ _ |- _ => destruct E as [E|E]; apply String.eqb_neq in E
           end; congruence.
Qed.

(** An accepted record of the dockerv2 type has a target. *)
Theorem X11_ParseRecord_dockerv2_has_target str r :
  result (ParseRecord env c str req) = Ok r ->
  Type_ r = "dockerv2"%string ->
  To r <> ""%string.
Proof.
  intros Hr. unfold ParseRecord in Hr.
  apply bind_Ok_inv in Hr as (t & r1 & _ & Hfin).
  revert Hfin.
  run_finish; intros H; inversion H; subst; simpl; try discriminate;
    repeat match goal with
           | E : (_ && _)%bool = false |- _ => apply andb_false_iff in E
           | E : String.eqb _ _ = true |- _ => apply String.eqb_eq in E
           | E : String.eqb _ _ = false |- _ => apply String.eqb_neq in E
           end; simpl in *; intros Hd Hto;
    repeat match goal with
           | E : _ \/ _ |- _ => destruct E as [E|E]; apply String.eqb_neq in E
           end; congruence.
Qed.

(** The [Use] of an accepted record lists the zones of the [use=]
    directives of the string in their order, and each of them starts with
    the upstream prefix. *)
Theorem X12_ParseRecord_use_in_order str r :
  result (ParseRecord env c str req) = Ok r ->
  Use r = useZones (segments str)
  /\ Forall (fun z => HasPrefix z "_redirect." = true) (Use r).
Proof.
  intros Hr. unfold ParseRecord in Hr.
  apply bind_Ok_inv in Hr as (t & r1 & Hloop & Hfin).
  assert (Hloop' : result (parseSegments env req (segments str) zeroRecord)
                   = Ok r1) by now rewrite Hloop.
  rewrite (finishRecord_Use r1 r Hfin). split.
  - now rewrite (parseSegments_Use _ _ _ Hloop').
  - apply (parseSegments_inv env req
             (fun r => Forall (fun z => HasPrefix z "_redirect." = true)
                              (Use r)) (segments str))
      with (r0 := zeroRecord); [|constructor|exact Hloop'].
    intros l a b _ Ha Hb. exact (parseSegment_Use_prefix l a b Hb Ha).
Qed.

(** A string that ends with a semicolon is rejected: its last segment is
    empty, which the default case takes for arbitrary data. *)
Theorem X13_ParseRecord_trailing_semicolon str :
  failed (ParseRecord env c (str ++ ";") req).
Proof.
  apply ParseRecord_failed with (l := ""%string).
  - unfold segments. rewrite Split_app_last, map_app.
    apply in_or_app. right. left. reflexivity.
  - intros r. apply failed_throw.
Qed.

Lemma parseSegment_default l r :
  recognized l = false ->
  parseSegment env req l r =
    if (countByte "=" l =? 1)%nat then ([], Ok r) else ([], Err ErrArbitrary).
Proof.
  intros H. unfold recognized, knownKeys in H. cbn [existsb] in H.
  repeat (apply orb_false_iff in H as [? H]).
  unfold parseSegment.
  repeat match goal with
         | E : HasPrefix l _ = false |- _ => rewrite E; clear E
         end.
  rewrite length_Split.
  change (S (countByte "=" l) =? 2)%nat with (countByte "=" l =? 1)%nat.
  now destruct (countByte "=" l =? 1)%nat.
Qed.

(** A segment that starts with none of the keys is skipped when it has
    exactly one [=], whatever its length, and is an error otherwise. *)
Theorem X14_parseSegment_unknown_key l r :
  recognized l = false ->
  parseSegment env req l r =
    if (countByte "=" l =? 1)%nat then ([], Ok r) else ([], Err ErrArbitrary).
Proof.
  intros H. unfold recognized, knownKeys in H. cbn [existsb] in H.
  repeat (apply orb_false_iff in H as [? H]).
  unfold parseSegment.
  repeat match goal with
         | E : HasPrefix l _ = false |- _ => rewrite E; clear E
         end.
  rewrite length_Split.
  change (S (countByte "=" l) =? 2)%nat with (countByte "=" l =? 1)%nat.
  now destruct (countByte "=" l =? 1)%nat.
Qed.

(** The only effect of ParseRecord is the global fallback with the
    permanent-redirect status: it looks nothing up and writes neither a
    header nor a redirect. *)
Theorem X15_ParseRecord_only_falls_back str ev :
  In ev (trace (ParseRecord env c str req)) -> ev = parserFallback.
Proof.
  assert (Hseg : forall l r, In ev (trace (parseSegment env req l r)) ->
                             ev = parserFallback).
  { intros l r. run_segment; simpl; intuition. }
  assert (Hloop : forall segs r,
             In ev (trace (parseSegments env req segs r)) ->
             ev = parserFallback).
  { induction segs as [|x segs IH]; intros r; simpl; [tauto|].
    rewrite trace_bind. intros H. apply in_app_or in H as [H|H].
    - now apply Hseg in H.
    - destruct (result (parseSegment env req x r)); [|destruct H..].
      now apply IH in H. }
  unfold ParseRecord. rewrite trace_bind. intros H.
  apply in_app_or in H as [H|H]; [now apply Hloop in H|].
  destruct (result (parseSegments env req (segments str) zeroRecord))
    as [r| |]; [|destruct H..].
  revert H. run_finish; simpl; intuition.
Qed.

(** A malformed [ref=] value is reported twice: ParseRecord invokes the
    global fallback and also returns the error of the boolean parse. *)
Theorem X16_ParseRecord_bad_ref str pre l post t r :
  segments str = pre ++ l :: post ->
  parseSegments env req pre zeroRecord = (t, Ok r) ->
  HasPrefix l "ref=" = true ->
  ParseBool (TrimPrefix l "ref=") = None ->
  ParseRecord env c str req = (t ++ [parserFallback], Err ErrParseBool).
Proof.
  intros Hsegs Hpre Hp Hbool. unfold ParseRecord.
  rewrite Hsegs, parseSegments_app, Hpre. cbn [bind parseSegments].
  apply HasPrefix_split in Hp. rewrite Hp.
  rewrite parseSegment_ref. rewrite <- Hp, Hbool. reflexivity.
Qed.

(** A segment that a case of the [switch] rejects fails the whole parse:
    a [code=] that is not an integer, a [ref=] that is not a boolean, a
    [use=] outside the upstream prefix, a [from=], [root=] or [to=] whose
    placeholders do not expand, and a segment without key that has not
    exactly one [=]. *)
Theorem X17_ParseRecord_rejects_malformed str l :
  In l (segments str) ->
  malformed env req l ->
  failed (ParseRecord env c str req).
Proof.
  intros Hin Hbad. apply ParseRecord_failed with (l := l); [exact Hin|].
  intros r.
  destruct Hbad as [[Hp H]|[[Hp H]|[[Hp H]|[(k & Hk & Hp & H)|[Hp H]]]]].
  - apply HasPrefix_split in Hp. rewrite Hp, parseSegment_code, H.
    apply failed_throw.
  - apply HasPrefix_split in Hp. rewrite Hp, parseSegment_ref, H.
    apply failed_bind_cont. intros _. apply failed_throw.
  - apply HasPrefix_split in Hp. rewrite Hp, parseSegment_use, H.
    apply failed_throw.
  - apply HasPrefix_split in Hp. rewrite Hp.
    simpl in Hk. destruct Hk as [<-|[<-|[<-|[]]]].
    + rewrite parseSegment_from, H. apply failed_throw.
    + rewrite parseSegment_root, H. apply failed_throw.
    + rewrite parseSegment_to, H. apply failed_throw.
  - rewrite (parseSegment_default l r Hp).
    apply Nat.eqb_neq in H. rewrite H. apply failed_throw.
Qed.

End Parser.

(** ** Header directives *)

Lemma mapGet_mapSet_same k v m : mapGet k (mapSet k v m) = Some v.
Proof.
  induction m as [|[k' v'] m IH]; simpl.
  - now rewrite String.eqb_refl.
  - destruct (String.eqb k' k) eqn:E; simpl.
    + now rewrite String.eqb_refl.
    + now rewrite E.
Qed.

Lemma mapGet_mapSet_other k k0 v m :
  k0 <> k -> mapGet k0 (mapSet k v m) = mapGet k0 m.
Proof.
  intros Hne. induction m as [|[k' v'] m IH]; simpl.
  - apply not_eq_sym, String.eqb_neq in Hne. now rewrite Hne.
  - destruct (String.eqb k' k) eqn:E; simpl.
    + apply String.eqb_eq in E. subst k'.
      apply not_eq_sym, String.eqb_neq in Hne. now rewrite Hne.
    + now rewrite IH.
Qed.

(** A header directive [>name=value] stores under [name] the decoding of
    the value up to its first [=] (the rest of the value is dropped),
    overwriting an earlier header of that name and leaving the other
    headers as they are. *)
Theorem X18_header_directive env req name value h r :
  ContainsByte name "=" = false ->
  PathUnescape env (nth 0 (Split value "=") ""%string) = Some h ->
  (String.length (">" ++ name ++ "=" ++ value) <= 255)%nat ->
  exists r',
    parseSegment env req (">" ++ name ++ "=" ++ value) r = ([], Ok r')
    /\ mapGet name (Headers r') = Some h
    /\ (forall k, k <> name -> mapGet k (Headers r') = mapGet k (Headers r))
    /\ set_Headers (Headers r) r' = r.
Proof.
  intros Hname Hdec Hlen.
  exists (set_Headers (mapSet name h (Headers r)) r).
  rewrite parseSegment_header.
  change (">" ++ name ++ "=" ++ value)%string
    with ((">" ++ name) ++ String "=" value)%string in *.
  rewrite (Split_app_sep (">" ++ name) "=" value) by exact Hname.
  destruct (Split value "=") as [|v0 vs] eqn:Hs;
    [now apply Split_nonempty in Hs|].
  cbn [nth_error nth] in *. rewrite Hdec. cbv zeta.
  rewrite checkLen_short by exact Hlen.
  repeat split.
  - apply mapGet_mapSet_same.
  - intros k Hk. now apply mapGet_mapSet_other.
  - now destruct r.
Qed.

Lemma X18_header_directive_witness :
  exists r',
    parseSegment (Sample.world [] None) (Sample.request "example.com" "/")
                 (">" ++ "X-Test" ++ "=" ++ "a=b") zeroRecord = ([], Ok r')
    /\ mapGet "X-Test" (Headers r') = Some "a"%string.
Proof.
  destruct (X18_header_directive
              (Sample.world [] None) (Sample.request "example.com" "/")
              "X-Test" "a=b" "a" zeroRecord eq_refl eq_refl
              ltac:(vm_compute; lia)) as (r' & H1 & H2 & _).
  exists r'. split; assumption.
Defined.

(** ** isIP *)

Lemma Atoi_cons a s :
  Atoi (String a s) =
  match (if Ascii.eqb a "-" then option_map Z.opp (unsigned s)
         else if Ascii.eqb a "+" then unsigned s
         else unsigned (String a s)) with
  | Some n => if (minInt <=? n)%Z && (n <=? maxInt)%Z then Some n else None
  | None => None
  end.
Proof.
  destruct a as [[] [] [] [] [] [] [] []]; reflexivity.
Qed.

Lemma digits_colon s acc : ContainsByte s ":" = true -> digits acc s = None.
Proof.
  revert acc. induction s as [|a s IH]; intros acc; simpl; [discriminate|].
  destruct (Ascii.eqb a ":") eqn:E.
  - apply Ascii.eqb_eq in E. subst a. reflexivity.
  - simpl. intros H. destruct (digit a); [now apply IH|reflexivity].
Qed.

Lemma unsigned_colon s : ContainsByte s ":" = true -> unsigned s = None.
Proof.
  destruct s as [|a s]; [discriminate|]. apply digits_colon.
Qed.

(** [strconv.Atoi] rejects a text with a colon in it. *)
Lemma Atoi_colon s : ContainsByte s ":" = true -> Atoi s = None.
Proof.
  destruct s as [|a s]; [discriminate|]. intros H.
  rewrite Atoi_cons.
  destruct (Ascii.eqb a "-") eqn:Em.
  - apply Ascii.eqb_eq in Em. subst a. simpl in H.
    now rewrite (unsigned_colon s H).
  - destruct (Ascii.eqb a "+") eqn:Ep.
    + apply Ascii.eqb_eq in Ep. subst a. simpl in H.
      now rewrite (unsigned_colon s H).
    + now rewrite (unsigned_colon _ H).
Qed.

Lemma Split_app_no_sep x y sep :
  ContainsByte y sep = false ->
  Split (x ++ y) sep =
  removelast (Split x sep) ++ [(last (Split x sep) "" ++ y)%string].
Proof.
  intros Hy. induction x as [|a x IH].
  - simpl. now rewrite Split_no_sep.
  - cbn [append Split]. rewrite IH.
    destruct (Split x sep) as [|h [|t0 t]] eqn:Hs;
      [now apply Split_nonempty in Hs| |];
      destruct (Ascii.eqb a sep); reflexivity.
Qed.

(** A host with a port after a single colon is not taken for an IP
    address, whatever stands before the colon: the last label then holds
    the colon, which [strconv.Atoi] rejects. *)
Theorem X19_isIP_rejects_host_with_port (host port : string) :
  ContainsByte host ":" = false ->
  ContainsByte port ":" = false ->
  ContainsByte port "." = false ->
  isIP (host ++ ":" ++ port) = false.
Proof.
  intros Hh Hp Hdot. unfold isIP.
  change (host ++ ":" ++ port)%string with (host ++ String ":" port)%string.
  rewrite (Split_app_sep host ":" port Hh), (Split_no_sep port ":" Hp).
  cbn [length Nat.ltb Nat.leb].
  rewrite (Split_app_no_sep host (String ":" port) ".")
    by (simpl; exact Hdot).
  rewrite last_last, Atoi_colon; [reflexivity|].
  rewrite ContainsByte_app. simpl. now rewrite orb_true_r.
Qed.

Lemma X19_isIP_rejects_host_with_port_witness :
  isIP ("127.0.0.1" ++ ":" ++ "8080") = false.
Proof.
  apply (X19_isIP_rejects_host_with_port "127.0.0.1" "8080");
    reflexivity.
Defined.

(** A host with two or more colons is taken for an IP address. *)
Theorem X20_isIP_accepts_two_colons (host : string) :
  (2 <= countByte ":" host)%nat -> isIP host = true.
Proof.
  intros H. unfold isIP. rewrite length_Split.
  assert (E : (2 <? S (countByte ":" host))%nat = true)
    by (apply Nat.ltb_lt; lia).
  now rewrite E.
Qed.

Lemma X20_isIP_accepts_two_colons_witness :
  isIP "FE80::0202:B3FF:FE1E:8329" = true.
Proof.
  apply (X20_isIP_accepts_two_colons "FE80::0202:B3FF:FE1E:8329").
  vm_compute. lia.
Defined.

(** ** Redirect *)

(** A request for the blacklisted path is answered with the 404 redirect
    to host and path, whatever its host is: nothing is looked up and the
    Fallback Policy is not invoked. *)
Theorem X21_Redirect_blacklisted_path env c r :
  Path r = "/favicon.ico"%string ->
  Redirect env c r =
    ([EvHeaderSet "Server" "TXTDirect"; EvHeaderSet "Content-Type" "";
      EvHeaderAdd "Status-Code" "404";
      EvHTTPRedirect (Host r ++ "/favicon.ico") StatusNotFound], Ok tt).
Proof.
  intros Hpath. unfold Redirect. rewrite Hpath. reflexivity.
Qed.

Lemma X21_Redirect_blacklisted_path_witness :
  Redirect (Sample.world [] None) (mkConfig ["path"] "")
           (Sample.request "txtdirect.com" "/favicon.ico") =
    ([EvHeaderSet "Server" "TXTDirect"; EvHeaderSet "Content-Type" "";
      EvHeaderAdd "Status-Code" "404";
      EvHTTPRedirect ("txtdirect.com" ++ "/favicon.ico") StatusNotFound],
     Ok tt).
Proof.
  apply (X21_Redirect_blacklisted_path
           (Sample.world [] None) (mkConfig ["path"] "")
           (Sample.request "txtdirect.com" "/favicon.ico") eq_refl).
Defined.

Section DispatcherMore.

Variable env : Env.
Variable c : Config.
Variable r : Request.
Variable t : list Event.
Variable rec : Record_.

Let server : Event := EvHeaderSet "Server" "TXTDirect".
Let r' : Request := addToContext rec r.

Hypothesis notBlacklisted : Path r <> "/favicon.ico"%string.
Hypothesis notIP : isIP (Host r) = false.
Hypothesis resolved : GetRecord env c (Host r) r = (t, Ok rec).

Lemma Redirect_dispatch :
  Redirect env c r =
    (server :: t ++ trace (dispatch env c (Host r) (Path r) rec r'),
     result (dispatch env c (Host r) (Path r) rec r')).
Proof. exact (Redirect_resolved env c r notBlacklisted t rec notIP resolved). Qed.

(** A record whose type is not enabled is answered with the "option
    disabled" error: no fallback, no redirect and no handler. *)
Theorem X22_Redirect_disabled_type :
  contains (Enable c) (Type_ rec) = false ->
  Redirect env c r = (server :: t, Err ErrOptionDisabled).
Proof.
  intros Hen. rewrite Redirect_dispatch. unfold dispatch. rewrite Hen.
  simpl. now rewrite app_nil_r.
Qed.

(** A record of an enabled type that has both [re=] and [from=] is
    answered by the "to" fallback with the record's code, whatever its
    type is. *)
Theorem X23_Redirect_from_and_re :
  contains (Enable c) (Type_ rec) = true ->
  Re rec <> ""%string ->
  From rec <> ""%string ->
  Redirect env c r = (server :: t ++ [EvFallback "to" (Code rec)], Ok tt).
Proof.
  intros Hen Hre Hfrom. rewrite Redirect_dispatch. unfold dispatch.
  apply String.eqb_neq in Hre, Hfrom. rewrite Hen, Hre, Hfrom. reflexivity.
Qed.

Hypothesis enabled : contains (Enable c) (Type_ rec) = true.
Hypothesis notBoth : Re rec = ""%string \/ From rec = ""%string.

Lemma Redirect_typeStage :
  Type_ rec <> "path"%string ->
  Redirect env c r =
    (server :: t ++ trace (typeStage env (Host r) (Path r) rec r'),
     result (typeStage env (Host r) (Path r) rec r')).
Proof.
  intros Hty. rewrite Redirect_dispatch.
  now rewrite (dispatch_type env c (Host r) (Path r) rec r' enabled notBoth Hty).
Qed.



(** The handlers of the dockerv2 and gometa types are guarded: a request
    that is not of a Docker client gets the "to" fallback, a request
    without [go-get=1] the "website" fallback with the code 302, and in
    both cases the handler is not called. *)
Theorem X26_Redirect_handler_guards :
  (Type_ rec = "dockerv2"%string ->
   Contains (UserAgent r) "Docker-Client" = false ->
   Redirect env c r = (server :: t ++ [EvFallback "to" (Code rec)], Ok tt))
  /\ (Type_ rec = "gometa"%string ->
      GoGet r <> "1"%string ->
      Redirect env c r
      = (server :: t ++ [EvFallback "website" StatusFound], Ok tt)).
Proof.
  split.
  - intros Hty Hua. rewrite Redirect_typeStage by (rewrite Hty; discriminate).
    unfold typeStage. rewrite Hty. change (UserAgent r') with (UserAgent r).
    cbn [String.eqb Ascii.eqb Bool.eqb]. rewrite Hua. reflexivity.
  - intros Hty Hgo. rewrite Redirect_typeStage by (rewrite Hty; discriminate).
    unfold typeStage. rewrite Hty. change (GoGet r') with (GoGet r).
    apply String.eqb_neq in Hgo. rewrite Hgo. reflexivity.
Qed.

(** A handler that returns nil ends the request: its call is the one
    event after the resolution, no fallback is invoked and Redirect
    returns nil (proxy, dockerv2 for a Docker client, gometa for
    [go-get=1], gomods). *)
Theorem X27_Redirect_handler_success :
  (Type_ rec = "proxy"%string -> proxyRequest env r' rec = None ->
   Redirect env c r = (server :: t ++ [EvProxy], Ok tt))
  /\ (Type_ rec = "dockerv2"%string ->
      Contains (UserAgent r) "Docker-Client" = true ->
      redirectDockerv2 env r' rec = None ->
      Redirect env c r = (server :: t ++ [EvDockerv2], Ok tt))
  /\ (Type_ rec = "gometa"%string -> GoGet r = "1"%string ->
      gometa env rec (Host r) (Path r) = None ->
      Redirect env c r = (server :: t ++ [EvGometa], Ok tt))
  /\ (Type_ rec = "gomods"%string -> gomods env r' (Path r) = None ->
      Redirect env c r = (server :: t ++ [EvGomods], Ok tt)).
Proof.
  repeat split.
  - intros Hty Hh. rewrite Redirect_typeStage by (rewrite Hty; discriminate).
    unfold typeStage. rewrite Hty, Hh. reflexivity.
  - intros Hty Hua Hh.
    rewrite Redirect_typeStage by (rewrite Hty; discriminate).
    unfold typeStage. rewrite Hty. change (UserAgent r') with (UserAgent r).
    cbn [String.eqb Ascii.eqb Bool.eqb]. rewrite Hua, Hh. reflexivity.
  - intros Hty Hgo Hh.
    rewrite Redirect_typeStage by (rewrite Hty; discriminate).
    unfold typeStage. rewrite Hty. change (GoGet r') with (GoGet r).
    rewrite Hgo, Hh. reflexivity.
  - intros Hty Hh. rewrite Redirect_typeStage by (rewrite Hty; discriminate).
    unfold typeStage. rewrite Hty, Hh. reflexivity.
Qed.

(** An enabled type that is none of the six known ones is answered with
    the "unsupported" error and without a fallback. *)
Theorem X28_Redirect_unsupported_type :
  ~ In (Type_ rec) ["path"; "proxy"; "dockerv2"; "host"; "gometa";
                    "gomods"]%string ->
  Redirect env c r = (server :: t, Err (ErrUnsupported (Type_ rec))).
Proof.
  intros Hty.
  assert (H : forall k, In k ["path"; "proxy"; "dockerv2"; "host"; "gometa";
                              "gomods"]%string ->
                        String.eqb (Type_ rec) k = false).
  { intros k Hk. apply String.eqb_neq. intros E. apply Hty. now rewrite E. }
  rewrite Redirect_typeStage
    by (apply String.eqb_neq, H; simpl; auto).
  unfold typeStage. rewrite !H by (simpl; auto 10).
  simpl. now rewrite app_nil_r.
Qed.

End DispatcherMore.

(** When ParseRecord rejects the string that the request resolves to,
    Redirect invokes the global fallback with the code 302 after the
    events of the parser and returns nil; a malformed [ref=], for which
    the parser has invoked the fallback itself, thus leads to two
    invocations for one request. *)
Theorem X29_Redirect_parse_error env c r str tq tp e :
  Path r <> "/favicon.ico"%string ->
  isIP (Host r) = false ->
  resolvesTo env c r str tq ->
  ParseRecord env c str r = (tp, Err e) ->
  Redirect env c r =
    (EvHeaderSet "Server" "TXTDirect"
     :: (tq ++ tp) ++ [EvFallback "global" StatusFound], Ok tt).
Proof.
  intros Hpath Hip [_ Hres] Hparse.
  apply (Redirect_unresolved env c r Hpath (tq ++ tp) (ErrParseRecord e) Hip).
  rewrite Hres. unfold parseAnswer. rewrite Hparse. simpl.
  now rewrite app_nil_r.
Qed.

Lemma X29_Redirect_parse_error_witness :
  Redirect (Sample.world [("_redirect.h.example.com.",
                           ["to=https://example.com/;ref=maybe"%string])] None)
           (mkConfig ["host"] "") (Sample.request "h.example.com" "/") =
    (EvHeaderSet "Server" "TXTDirect"
     :: ([EvLookupTXT "" "_redirect.h.example.com."] ++ [parserFallback])
     ++ [EvFallback "global" StatusFound], Ok tt).
Proof.
  apply (X29_Redirect_parse_error
           (Sample.world [("_redirect.h.example.com.",
                           ["to=https://example.com/;ref=maybe"%string])] None)
           (mkConfig ["host"] "") (Sample.request "h.example.com" "/")
           "to=https://example.com/;ref=maybe"
           [EvLookupTXT "" "_redirect.h.example.com."] [parserFallback]
           ErrParseBool ltac:(simpl; discriminate) eq_refl).
  - split; [repeat constructor|vm_compute; reflexivity].
  - vm_compute. reflexivity.
Defined.

(** ** CheckUpstream *)

Lemma upstream_suffix rest :
  Join (tl (Split ("_redirect." ++ rest) ".")) "." = rest.
Proof.
  change ("_redirect." ++ rest)%string
    with ("_redirect" ++ String "." rest)%string.
  rewrite (Split_app_sep "_redirect" "." rest eq_refl). cbn [tl].
  apply Join_Split.
Qed.

(** CheckUpstream leaves a record without [use=] and its request as they
    are, without any effect.  Otherwise it returns the record that
    UpstreamRecord finds and records in the request's context the name of
    the winning zone without its leading [_redirect.] label; the error of
    UpstreamRecord is passed on. *)
Theorem X30_CheckUpstream env c rec r :
  (Use rec = [] -> CheckUpstream env c rec r = ([], Ok (rec, r)))
  /\ (forall t up rest,
        UpstreamRecord env c rec r
        = (t, Ok (up, ("_redirect." ++ rest)%string)) ->
        CheckUpstream env c rec r =
          (t, Ok (up, mkRequest (Host r) (Path r) (UserAgent r) (GoGet r)
                                (ctxRecords r) (Some rest))))
  /\ (forall t e,
        Use rec <> [] ->
        UpstreamRecord env c rec r = (t, Err e) ->
        CheckUpstream env c rec r = (t, Err e)).
Proof.
  unfold CheckUpstream. repeat split.
  - intros ->. reflexivity.
  - intros t up rest Hup.
    assert (Hne : (length (Use rec) =? 0)%nat = false).
    { destruct (Use rec) eqn:E; [|reflexivity].
      unfold UpstreamRecord in Hup. rewrite E in Hup. discriminate. }
    rewrite Hne, Hup. cbn [negb bind ret]. rewrite upstream_suffix.
    now rewrite app_nil_r.
  - intros t e Hne Hup.
    destruct (Use rec) eqn:E; [contradiction|].
    cbn [length Nat.eqb negb]. now rewrite Hup.
Qed.

Lemma X30_CheckUpstream_witness :
  CheckUpstream Sample.upstreamWorld (mkConfig ["host"] "")
                Sample.upstreamRec (Sample.request "example.com" "/") =
    ([EvLookupTXT "" "_redirect.one.example.";
      EvLookupTXT "" "_redirect._._redirect.one.example.";
      EvLookupTXT "" "_redirect._.one.example.";
      EvLookupTXT "" "_redirect.two.example."],
     Ok (set_Code 302 (set_Type "host"
           (set_To "https://example.com/" zeroRecord)),
         mkRequest "example.com" "/" "" "" None (Some "two.example"%string))).
Proof.
  apply (proj1 (proj2 (X30_CheckUpstream
                         Sample.upstreamWorld (mkConfig ["host"] "")
                         Sample.upstreamRec
                         (Sample.request "example.com" "/")))
               _ _ "two.example"%string).
  vm_compute. reflexivity.
Defined.

(** ** The further properties at concrete inputs *)

Lemma X4_query_answer_not_empty_witness :
  [EvLookupTXT "" "_redirect.bad.example.com."]
  = [lookupEv Sample.allTypes (absoluteZone "bad.example.com")]
  /\ LookupTXT Sample.zones (Resolver Sample.allTypes)
               (absoluteZone "bad.example.com") = Some ["code=abc"%string]
  /\ exists t0 rest, ["code=abc"%string] = t0 :: rest /\ t0 <> ""%string.
Proof.
  apply (X4_query_answer_not_empty Sample.zones Sample.allTypes
           "bad.example.com").
  vm_compute. reflexivity.
Defined.

Lemma X5_GetRecord_needs_one_string_witness :
  GetRecord Sample.zones Sample.allTypes "two.example.com"
            (Sample.request "two.example.com" "/") =
    ([lookupEv Sample.allTypes (absoluteZone "two.example.com")],
     Err (ErrRecordCount (length ["to=https://a/"; "to=https://b/"]%string))).
Proof.
  apply (X5_GetRecord_needs_one_string Sample.zones Sample.allTypes).
  - split; [reflexivity|]. eexists _, _. split; [reflexivity|discriminate].
  - simpl. discriminate.
Defined.

Lemma X6_GetRecord_sets_headers_witness :
  GetRecord Sample.zones Sample.allTypes "h.example.com"
            (Sample.request "h.example.com" "/") =
    (lookupEv Sample.allTypes (absoluteZone "h.example.com")
     :: [] ++ headerEvents
                (Headers (mkRecord "txtv0" "https://example.com/" 301 "host"
                                   [] "" "" "" "" "" false
                                   [("X-Test", "1")]%string)),
     Ok (mkRecord "txtv0" "https://example.com/" 301 "host" [] "" "" "" "" ""
                  false [("X-Test", "1")]%string)).
Proof.
  apply (X6_GetRecord_sets_headers Sample.zones Sample.allTypes
           "h.example.com" (Sample.request "h.example.com" "/")
           "v=txtv0;to=https://example.com/;code=301;>X-Test=1").
  - split; [reflexivity|]. eexists _, _. split; [reflexivity|discriminate].
  - vm_compute. reflexivity.
Defined.

Lemma X7_GetRecord_wraps_parse_error_witness :
  GetRecord Sample.zones Sample.allTypes "bad.example.com"
            (Sample.request "bad.example.com" "/") =
    ([lookupEv Sample.allTypes (absoluteZone "bad.example.com")],
     Err (ErrParseRecord ErrStatusCode)).
Proof.
  apply (X7_GetRecord_wraps_parse_error Sample.zones Sample.allTypes
           "bad.example.com" (Sample.request "bad.example.com" "/")
           "code=abc").
  - split; [reflexivity|]. eexists _, _. split; [reflexivity|discriminate].
  - vm_compute. reflexivity.
Defined.

Lemma X9_ParseRecord_code_default_witness :
  let r := mkRecord "" "https://example.com/" 302 "host" [] "" "" "" "" ""
                    false [] in
  r = zeroRecord
  \/ (Code r <> 0%Z
      /\ ((forall l, In l (segments "to=https://example.com/") ->
                     HasPrefix l "code=" = false) ->
          Code r = StatusFound)).
Proof.
  apply (X9_ParseRecord_code_default Sample.zones Sample.allTypes
           (Sample.request "example.com" "/") "to=https://example.com/").
  vm_compute. reflexivity.
Defined.

Lemma X10_ParseRecord_type_enabled_witness :
  let r := mkRecord "" "https://example.com/" 302 "host" [] "" "" "" "" ""
                    false [] in
  r = zeroRecord
  \/ (contains (Enable Sample.allTypes) (Type_ r) = true
      /\ Type_ r <> ""%string
      /\ (Type_ r = "host"%string -> To r <> ""%string)).
Proof.
  apply (X10_ParseRecord_type_enabled Sample.zones Sample.allTypes
           (Sample.request "example.com" "/") "to=https://example.com/").
  - vm_compute. reflexivity.
  - reflexivity.
Defined.

Lemma X11_ParseRecord_dockerv2_has_target_witness :
  To (mkRecord "" "https://r/" 302 "dockerv2" [] "" "" "" "" "" false [])
  <> ""%string.
Proof.
  apply (X11_ParseRecord_dockerv2_has_target Sample.zones Sample.allTypes
           (Sample.request "example.com" "/") "type=dockerv2;to=https://r/").
  - vm_compute. reflexivity.
  - reflexivity.
Defined.

Lemma X12_ParseRecord_use_in_order_witness :
  let r := mkRecord "" "" 302 "" ["_redirect.a"; "_redirect.b"]%string
                    "git" "" "" "" "" false [] in
  Use r = useZones (segments "use=_redirect.a;vcs=git;use=_redirect.b")
  /\ Forall (fun z => HasPrefix z "_redirect." = true) (Use r).
Proof.
  apply (X12_ParseRecord_use_in_order Sample.zones Sample.allTypes
           (Sample.request "example.com" "/")
           "use=_redirect.a;vcs=git;use=_redirect.b").
  vm_compute. reflexivity.
Defined.

Lemma X14_parseSegment_unknown_key_witness :
  parseSegment Sample.zones (Sample.request "example.com" "/")
               "foo=bar" zeroRecord =
    if (countByte "=" "foo=bar" =? 1)%nat then ([], Ok zeroRecord)
    else ([], Err ErrArbitrary).
Proof.
  apply (X14_parseSegment_unknown_key Sample.zones
           (Sample.request "example.com" "/") "foo=bar" zeroRecord).
  reflexivity.
Defined.

Lemma X15_ParseRecord_only_falls_back_witness :
  EvFallback "global" 301 = parserFallback.
Proof.
  apply (X15_ParseRecord_only_falls_back Sample.zones Sample.allTypes
           (Sample.request "example.com" "/") "type=host;code=301").
  vm_compute. left. reflexivity.
Defined.

Lemma X16_ParseRecord_bad_ref_witness :
  ParseRecord Sample.zones Sample.allTypes "to=https://example.com/;ref=maybe"
              (Sample.request "example.com" "/") =
    ([] ++ [parserFallback], Err ErrParseBool).
Proof.
  apply (X16_ParseRecord_bad_ref Sample.zones Sample.allTypes
           (Sample.request "example.com" "/")
           "to=https://example.com/;ref=maybe"
           ["to=https://example.com/"%string] "ref=maybe" []
           [] (set_To "https://example.com/" zeroRecord)).
  - vm_compute. reflexivity.
  - vm_compute. reflexivity.
  - reflexivity.
  - reflexivity.
Defined.

Lemma X17_ParseRecord_rejects_malformed_witness :
  failed (ParseRecord Sample.zones Sample.allTypes
                      "to=https://example.com/;code=abc"
                      (Sample.request "example.com" "/")).
Proof.
  apply (X17_ParseRecord_rejects_malformed Sample.zones Sample.allTypes
           (Sample.request "example.com" "/")
           "to=https://example.com/;code=abc" "code=abc").
  - vm_compute. right. left. reflexivity.
  - left. split; reflexivity.
Defined.

Lemma X22_Redirect_disabled_type_witness :
  Redirect Sample.zones Sample.allTypes
           (Sample.request "use.example.com" "/") =
    (EvHeaderSet "Server" "TXTDirect"
     :: [EvLookupTXT "" "_redirect.use.example.com."],
     Err ErrOptionDisabled).
Proof.
  apply (X22_Redirect_disabled_type Sample.zones Sample.allTypes
           (Sample.request "use.example.com" "/")
           [EvLookupTXT "" "_redirect.use.example.com."]
           (mkRecord "" "" 302 "" ["_redirect.up.example.com"%string]
                     "" "" "" "" "" false [])).
  - simpl. discriminate.
  - reflexivity.
  - vm_compute. reflexivity.
  - reflexivity.
Defined.

Lemma X23_Redirect_from_and_re_witness :
  Redirect Sample.zones Sample.allTypes
           (Sample.request "both.example.com" "/") =
    (EvHeaderSet "Server" "TXTDirect"
     :: [EvLookupTXT "" "_redirect.both.example.com."]
     ++ [EvFallback "to" 302], Ok tt).
Proof.
  apply (X23_Redirect_from_and_re Sample.zones Sample.allTypes
           (Sample.request "both.example.com" "/")
           [EvLookupTXT "" "_redirect.both.example.com."]
           (mkRecord "" "https://example.com/" 302 "host" [] "" "" "y" ""
                     "x" false [])).
  - simpl. discriminate.
  - reflexivity.
  - vm_compute. reflexivity.
  - reflexivity.
  - simpl. discriminate.
  - simpl. discriminate.
Defined.



Lemma X26_Redirect_handler_guards_witness :
  Redirect Sample.zones Sample.allTypes
           (Sample.request "d.example.com" "/v2/") =
    (EvHeaderSet "Server" "TXTDirect"
     :: [EvLookupTXT "" "_redirect.d.example.com."]
     ++ [EvFallback "to" 302], Ok tt).
Proof.
  apply (proj1 (X26_Redirect_handler_guards Sample.zones Sample.allTypes
                  (Sample.request "d.example.com" "/v2/")
                  [EvLookupTXT "" "_redirect.d.example.com."]
                  (mkRecord "" "https://r/" 302 "dockerv2" [] "" "" "" ""
                            "" false [])
                  ltac:(simpl; discriminate) eq_refl
                  ltac:(vm_compute; reflexivity) eq_refl
                  (or_introl eq_refl))).
  - reflexivity.
  - reflexivity.
Defined.

Lemma X27_Redirect_handler_success_witness :
  Redirect Sample.zones Sample.allTypes
           (Sample.request "x.example.com" "/") =
    (EvHeaderSet "Server" "TXTDirect"
     :: [EvLookupTXT "" "_redirect.x.example.com."] ++ [EvProxy], Ok tt).
Proof.
  apply (proj1 (X27_Redirect_handler_success Sample.zones Sample.allTypes
                  (Sample.request "x.example.com" "/")
                  [EvLookupTXT "" "_redirect.x.example.com."]
                  (mkRecord "" "https://r/" 302 "proxy" [] "" "" "" ""
                            "" false [])
                  ltac:(simpl; discriminate) eq_refl
                  ltac:(vm_compute; reflexivity) eq_refl
                  (or_introl eq_refl))).
  - reflexivity.
  - reflexivity.
Defined.

Lemma X28_Redirect_unsupported_type_witness :
  Redirect Sample.zones Sample.allTypes
           (Sample.request "u.example.com" "/") =
    (EvHeaderSet "Server" "TXTDirect"
     :: [EvLookupTXT "" "_redirect.u.example.com."],
     Err (ErrUnsupported "custom")).
Proof.
  apply (X28_Redirect_unsupported_type Sample.zones Sample.allTypes
           (Sample.request "u.example.com" "/")
           [EvLookupTXT "" "_redirect.u.example.com."]
           (mkRecord "" "https://r/" 302 "custom" [] "" "" "" ""
                     "" false [])).
  - simpl. discriminate.
  - reflexivity.
  - vm_compute. reflexivity.
  - reflexivity.
  - left. reflexivity.
  - simpl. intros H. repeat (destruct H as [H|H]; [discriminate|]). exact H.
Defined.
